(** * confluence.client: the paged and single-result fetch engine

    A shallow embedding of [src/confluence/client.py].  The class
    [Confluence] becomes a record that is threaded explicitly, the HTTP
    transport becomes a transition function on an abstract world, and the
    generator returned by [_get_paged_results] becomes a suspended state
    that is advanced by [gen_next], one call of Python's [next] at a time. *)

From Stdlib Require Import DecimalString.
From stdpp Require Import gmap strings list.

(** ** Decoded JSON bodies

    What [response.json()] hands back.  An object keeps its members in
    insertion order (a Python dict iterates in that order); numbers are the
    integral ones. *)

#[warnings="-register-all"]
Inductive json : Type :=
| JNull
| JBool (b : bool)
| JNum (n : Z)
| JStr (s : string)
| JArr (items : list json)
| JObj (members : list (string * json)).

(** Exceptions that the module raises or lets through. *)
Inductive exn : Type :=
| KeyError (key : string)
| TypeError
| ValueError (msg : string)
| TransportError.

(** ** A small error monad for code that may raise *)

Definition raises (A : Type) : Type := (exn + A)%type.

Definition ret {A} (a : A) : raises A := inr a.
Definition raise {A} (e : exn) : raises A := inl e.
Definition bind {A B} (m : raises A) (k : A -> raises B) : raises B :=
  match m with
  | inl e => inl e
  | inr a => k a
  end.

Notation "'do' x <- m ; k" := (bind m (fun x => k))
  (at level 10, x name, m at level 100, k at level 200).

(** ** The Python operations the module applies to decoded bodies *)

(** [dict.get]-style search of an object's members. *)
Fixpoint assoc (k : string) (kv : list (string * json)) : option json :=
  match kv with
  | [] => None
  | (k', v) :: rest => if String.eqb k k' then Some v else assoc k rest
  end.

(** [x[key]] with a string key: only a dict accepts it. *)
Definition py_getitem (x : json) (k : string) : raises json :=
  match x with
  | JObj kv =>
      match assoc k kv with
      | Some v => ret v
      | None => raise (KeyError k)
      end
  | _ => raise TypeError
  end.

(** [needle in s] on two strings: substring search. *)
Fixpoint is_infix (needle s : string) : bool :=
  String.prefix needle s ||
  match s with
  | EmptyString => false
  | String _ s' => is_infix needle s'
  end.

Definition is_str (k : string) (x : json) : bool :=
  match x with
  | JStr s => String.eqb s k
  | _ => false
  end.

(** [key in x]: key membership on a dict, element membership on a list,
    substring search on a string, [TypeError] on anything else. *)
Definition py_contains (k : string) (x : json) : raises bool :=
  match x with
  | JObj kv => ret (bool_decide (is_Some (assoc k kv)))
  | JArr l => ret (existsb (is_str k) l)
  | JStr s => ret (is_infix k s)
  | _ => raise TypeError
  end.

(** [for result in x]: the values that the loop variable takes. *)
Definition py_iter (x : json) : raises (list json) :=
  match x with
  | JArr l => ret l
  | JObj kv => ret (map (fun p => JStr (fst p)) kv)
  | JStr s => ret (map (fun a => JStr (String a EmptyString)) (String.list_ascii_of_string s))
  | _ => raise TypeError
  end.

Definition str_of_Z (n : Z) : string :=
  match n with
  | Z0 => "0"
  | Zpos p => NilZero.string_of_uint (Pos.to_uint p)
  | Zneg p => "-" +:+ NilZero.string_of_uint (Pos.to_uint p)
  end.

(** [','.join(xs)] *)
Definition join (sep : string) (xs : list string) : string := String.concat sep xs.

(** Truthiness of an [Optional[str]]: [None] and the empty string are
    falsy. *)
Definition truthy_str (o : option string) : bool :=
  match o with
  | Some s => negb (String.eqb s "")
  | None => false
  end.

(** ** The client object *)

(** A [requests.Session]: the credentials it attaches and whether it was
    closed. *)
Record Session : Type := mkSession {
  sess_auth : option (string * string);
  sess_closed : bool
}.

Record Confluence : Type := mkConfluence {
  _base_url : string;
  _basic_auth : string * string;
  _api_base : string;
  _client : option Session
}.

(** [Confluence(base_url, basic_auth)] *)
Definition __init__ (base_url : string) (basic_auth : string * string) : Confluence :=
  {| _base_url := base_url;
     _basic_auth := basic_auth;
     _api_base := base_url +:+ "/rest/api";
     _client := None |}.

(** What a Python call hands back when the callee is a client method that
    could return the client. *)
Inductive pyobj : Type :=
| PyNone
| PyClient (c : Confluence).

Definition requests_session : Session := {| sess_auth := None; sess_closed := false |}.

(** [__enter__]: no [return] statement, so the call evaluates to [None]. *)
Definition __enter__ (self : Confluence) : Confluence * pyobj :=
  let s := requests_session in
  let s := {| sess_auth := Some (_basic_auth self); sess_closed := sess_closed s |} in
  ({| _base_url := _base_url self;
      _basic_auth := _basic_auth self;
      _api_base := _api_base self;
      _client := Some s |}, PyNone).

Definition session_close (s : Session) : Session :=
  {| sess_auth := sess_auth s; sess_closed := true |}.

Definition __exit__ (self : Confluence) : Confluence :=
  match _client self with
  | Some s =>
      {| _base_url := _base_url self;
         _basic_auth := _basic_auth self;
         _api_base := _api_base self;
         _client := Some (session_close s) |}
  | None => self
  end.

(** [with mgr as name: body]: the name is bound to what [__enter__]
    returns, the body runs against the entered object, [__exit__] runs
    last. *)
Definition with_as {R} (mgr : Confluence) (body : pyobj -> Confluence -> R) : R * Confluence :=
  let '(entered, name) := __enter__ mgr in
  let r := body name entered in
  (r, __exit__ entered).

(** ** Requests *)

Inductive channel : Type :=
| ViaSession   (* [self._client.get(url, params=params)] *)
| AdHoc.       (* [requests.get(url, params=params, auth=...)] *)

Record Request : Type := mkRequest {
  req_url : string;
  req_params : gmap string string;
  req_auth : option (string * string);
  req_channel : channel
}.

(** The request that the [if self._client: ... else: ...] block sends. *)
Definition build_request (self : Confluence) (url : string) (params : gmap string string) : Request :=
  match _client self with
  | Some s =>
      {| req_url := url; req_params := params;
         req_auth := sess_auth s; req_channel := ViaSession |}
  | None =>
      {| req_url := url; req_params := params;
         req_auth := Some (_basic_auth self); req_channel := AdHoc |}
  end.

(** The domain classes whose constructors are passed as [item_type]. *)
Inductive model_class : Type := Page | Space | User | Group | LongTask.

(** Modelled from the spec: the enumerations [ContentType], [SpaceType] and
    [SpaceStatus] are declared in [confluence.models], outside this module;
    their members are "passed through by their string value", so a member
    is represented by its [value] (and, as a plain [Enum] member, is
    truthy). *)
Record enum_member : Type := mkEnum { value : string }.

(** A [datetime.date]. *)
Record date : Type := mkDate { year : Z; month : Z; day : Z }.

(** [s.zfill(width)] on a string of digits. *)
Definition zfill (width : nat) (s : string) : string :=
  String.concat "" (replicate (width - String.length s) "0") +:+ s.

(** [d.strftime('%Y-%m-%d')]: the year on four digits, month and day on
    two. *)
Definition strftime_Ymd (d : date) : string :=
  zfill 4 (str_of_Z (year d)) +:+ "-" +:+ zfill 2 (str_of_Z (month d))
    +:+ "-" +:+ zfill 2 (str_of_Z (day d)).

(** [if v: params[k] = v] for an [Optional[str]] argument. *)
Definition set_if_truthy (k : string) (v : option string) (params : gmap string string)
  : gmap string string :=
  match v with
  | Some s => if truthy_str (Some s) then <[k := s]> params else params
  | None => params
  end.

(** ** A scripted transport and sample data

    A transport in the manner of a test double: it hands out queued
    responses in order, whatever is requested, and fails once the queue
    is empty.  Hydration keeps the class and the body side by side. *)

Definition scripted (r : Request) (queue : list (raises json))
  : raises json * list (raises json) :=
  match queue with
  | [] => (raise TransportError, [])
  | resp :: rest => (resp, rest)
  end.

Definition tagged (item_type : model_class) (body : json) : model_class * json :=
  (item_type, body).

Definition no_compound (x : json) : string := "".

Definition wiki : Confluence := __init__ "https://wiki" ("user", "secret").

Definition page_one : json :=
  JObj [("results", JArr [JStr "a"; JStr "b"]);
        ("_links", JObj [("next", JStr "/rest/api/content?start=25")])].

Definition page_two : json :=
  JObj [("results", JArr [JStr "c"]);
        ("_links", JObj [("self", JStr "/rest/api/content")])].

Definition two_pages : list (raises json) := [inr page_one; inr page_two].

(** A page without [_links]. *)
Definition broken_page : json := JObj [("results", JArr [JStr "a"])].

(** The body of a single long task, as [longtask/{id}] returns it: not a
    page, it has no [results]. *)
Definition task_body : json :=
  JObj [("id", JStr "7f3a"); ("percentageComplete", JNum 100);
        ("_links", JObj [("self", JStr "/rest/api/longtask/7f3a")])].

(** [__str__] *)
Definition __str__ (self : Confluence) : string := _api_base self.

(** The clients that a program can hold: built by the constructor, then
    entered and left any number of times. *)
Inductive in_use : Confluence -> Prop :=
| in_use_init base_url basic_auth : in_use (__init__ base_url basic_auth)
| in_use_enter c : in_use c -> in_use (fst (__enter__ c))
| in_use_exit c : in_use c -> in_use (__exit__ c).

(** The channel that the client uses for its requests. *)
Definition channel_of (self : Confluence) : channel :=
  match _client self with
  | Some _ => ViaSession
  | None => AdHoc
  end.

(** What an [Optional[str]] filter contributes to the query. *)
Definition optional_param (v : option string) : option string :=
  if truthy_str v then v else None.

(** A transport whose every answer is an empty page with a next link. *)
Definition endless_page : json :=
  JObj [("results", JArr []); ("_links", JObj [("next", JStr "/rest/api/content?start=0")])].

Definition endless (r : Request) (w : unit) : raises json * unit := (inr endless_page, w).

(** A transport that cannot connect. *)
Definition unreachable (r : Request) (w : unit) : raises json * unit :=
  (raise TransportError, w).

(** ** The fetch engine

    The transport ([requests] and the server behind it) is a transition
    function on an abstract world: it answers a request with what
    [.json()] returns, or with the exception that the call raised.  The
    model classes live outside this module; [hydrate cls body] stands for
    the constructor call [cls(body)]. *)

Section Engine.

Context {World Entity : Type}.
Variable http_get : Request -> World -> raises json * World.
Variable hydrate : model_class -> json -> Entity.
(** [str] of a list or a dict, which [format] would apply to such a value. *)
Variable str_compound : json -> string.

Definition exchange : Type := (Request * raises json)%type.

(** ['{}'.format(x)] *)
Definition py_str (x : json) : string :=
  match x with
  | JNull => "None"
  | JBool true => "True"
  | JBool false => "False"
  | JNum n => str_of_Z n
  | JStr s => s
  | _ => str_compound x
  end.

(** [if expand: params['expand'] = ','.join(expand)] *)
Definition add_expand (params : gmap string string) (expand : option (list string))
  : gmap string string :=
  match expand with
  | Some (x :: xs) => <["expand" := join "," (x :: xs)]> params
  | _ => params
  end.

(** The [if self._client: ... else: ...] block: one GET, decoded. *)
Definition fetch (self : Confluence) (url : string) (params : gmap string string) (w : World)
  : raises json * World * exchange :=
  let req := build_request self url params in
  let '(resp, w') := http_get req w in
  (resp, w', (req, resp)).

Definition _get_single_result (self : Confluence) (item_type : model_class) (path : string)
    (params : gmap string string) (expand : option (list string)) (w : World)
  : raises Entity * World * list exchange :=
  let url := _api_base self +:+ "/" +:+ path in
  let params := add_expand params expand in
  let '(resp, w', x) := fetch self url params w in
  (do result <- resp; ret (hydrate item_type result), w', [x]).

(** *** The generator behind [_get_paged_results]

    Calling a generator function runs none of its body.  The object it
    returns is suspended at one of four places: before the first
    statement, at the head of the [while], inside the [for] with the
    results it still has to yield, or after the end. *)

Inductive generator : Type :=
| GenCreated (item_type : model_class) (path : string)
    (params : gmap string string) (expand : option (list string))
| GenLoop (item_type : model_class) (url : option string) (params : gmap string string)
| GenFor (item_type : model_class) (pending : list json)
    (url : option string) (params : gmap string string)
| GenDone.

Definition _get_paged_results (item_type : model_class) (path : string)
    (params : gmap string string) (expand : option (list string)) : generator :=
  GenCreated item_type path params expand.

(** The body of the [while] between the decoded response and the first
    pass of the [for]: the new [url], the new [params] and the results to
    iterate. *)
Definition turn_page (self : Confluence) (params : gmap string string) (search_results : json)
  : raises (option string * gmap string string * list json) :=
  do links <- py_getitem search_results "_links";
  do has_next <- py_contains "next" links;
  do state <-
    (if has_next : bool
     then do next <- py_getitem links "next";
          ret (Some (_base_url self +:+ py_str next), (∅ : gmap string string))
     else ret (None, params));
  do results <- py_getitem search_results "results";
  do pending <- py_iter results;
  ret (fst state, snd state, pending).

Inductive next_result : Type :=
| Yielded (item : Entity)
| StopIteration
| Raised (e : exn).

(** One call of [next] on the generator.  [self] is read again on every
    pass of the loop, so the client is an argument of each call.  The
    result is [None] when the fuel runs out before the generator yields,
    returns or raises. *)
Fixpoint gen_next (fuel : nat) (self : Confluence) (g : generator) (w : World)
  : option (next_result * generator * World * list exchange) :=
  match fuel with
  | O => None
  | S fuel' =>
      match g with
      | GenDone => Some (StopIteration, GenDone, w, [])
      | GenCreated item_type path params expand =>
          let url := _api_base self +:+ "/" +:+ path in
          gen_next fuel' self (GenLoop item_type (Some url) (add_expand params expand)) w
      | GenLoop _ None _ => Some (StopIteration, GenDone, w, [])
      | GenLoop item_type (Some url) params =>
          let '(resp, w', x) := fetch self url params w in
          match (do search_results <- resp; turn_page self params search_results) with
          | inl e => Some (Raised e, GenDone, w', [x])
          | inr (url', params', pending) =>
              match gen_next fuel' self (GenFor item_type pending url' params') w' with
              | Some (r, g', w'', xs) => Some (r, g', w'', x :: xs)
              | None => None
              end
          end
      | GenFor item_type [] url params => gen_next fuel' self (GenLoop item_type url params) w
      | GenFor item_type (result :: pending) url params =>
          Some (Yielded (hydrate item_type result), GenFor item_type pending url params, w, [])
      end
  end.

(** *** Consuming the generator *)

Inductive event : Type :=
| EvGet (x : exchange)
| EvYield (item : Entity).

Inductive outcome : Type :=
| Exhausted
| Failed (e : exn).

(** What a consumer has seen when it stops pulling: the items, how the
    generator ended ([None] while it is still suspended), every GET that
    went out and every item that came back, in order, and the generator
    and the world as they are left. *)
Record run : Type := mkRun {
  run_items : list Entity;
  run_status : option outcome;
  run_log : list event;
  run_gen : generator;
  run_world : World
}.

Definition after_yield (xs : list exchange) (item : Entity) (r : run) : run :=
  {| run_items := item :: run_items r;
     run_status := run_status r;
     run_log := map EvGet xs ++ EvYield item :: run_log r;
     run_gen := run_gen r;
     run_world := run_world r |}.

Definition ended (xs : list exchange) (res : next_result) (g : generator) (w : World) : run :=
  {| run_items := [];
     run_status :=
       match res with
       | Raised e => Some (Failed e)
       | _ => Some Exhausted
       end;
     run_log := map EvGet xs;
     run_gen := g;
     run_world := w |}.

(** [list(gen)]: call [next] until the generator stops or raises. *)
Fixpoint drain (fuel : nat) (self : Confluence) (g : generator) (w : World) : option run :=
  match fuel with
  | O => None
  | S fuel' =>
      match gen_next fuel' self g w with
      | None => None
      | Some (Yielded item, g', w', xs) =>
          match drain fuel' self g' w' with
          | Some r => Some (after_yield xs item r)
          | None => None
          end
      | Some (res, g', w', xs) => Some (ended xs res g' w')
      end
  end.

(** [itertools.islice(gen, n)]: at most [n] calls of [next], stopping
    early when the generator ends. *)
Fixpoint take (fuel : nat) (n : nat) (self : Confluence) (g : generator) (w : World)
  : option run :=
  match n with
  | O =>
      Some {| run_items := []; run_status := None; run_log := [];
              run_gen := g; run_world := w |}
  | S n' =>
      match gen_next fuel self g w with
      | None => None
      | Some (Yielded item, g', w', xs) =>
          match take fuel n' self g' w' with
          | Some r => Some (after_yield xs item r)
          | None => None
          end
      | Some (res, g', w', xs) => Some (ended xs res g' w')
      end
  end.

Definition gets_of (log : list event) : list exchange :=
  omap (fun ev => match ev with EvGet x => Some x | EvYield _ => None end) log.

Definition requests_of (log : list event) : list Request := map fst (gets_of log).

(** ** Query builders *)

(** The parameters that [get_content] assembles before it delegates. *)
Definition content_params (content_type : string) (space_key title status : option string)
    (posting_day : option date) : gmap string string :=
  let params : gmap string string := ∅ in
  let params :=
    if negb (String.eqb content_type "")
       && (String.eqb content_type "page" || String.eqb content_type "blogpost")
    then <["type" := content_type]> params else params in
  let params := set_if_truthy "spaceKey" space_key params in
  let params := set_if_truthy "title" title params in
  let params := set_if_truthy "status" status params in
  match posting_day with
  | Some d =>
      if String.eqb content_type "blogpost"
      then <["postingDay" := strftime_Ymd d]> params else params
  | None => params
  end.

Definition get_content (content_type : string) (space_key title status : option string)
    (posting_day : option date) (expand : option (list string)) : generator :=
  _get_paged_results Page "content"
    (content_params content_type space_key title status posting_day) expand.

Definition search (cql : string) (cql_context : option string) (expand : option (list string))
  : generator :=
  let params : gmap string string := {["cql" := cql]} in
  let params := set_if_truthy "cqlcontext" cql_context params in
  _get_paged_results Page "content/search" params expand.

Definition get_spaces (space_keys : option (list string)) (space_type status : option enum_member)
    (label : option string) (favourite : option bool) (expand : option (list string))
  : generator :=
  let params : gmap string string := ∅ in
  let params :=
    match space_keys with
    | Some (k :: ks) => <["spaceKey" := join "," (k :: ks)]> params
    | _ => params
    end in
  let params :=
    match space_type with
    | Some t => <["type" := value t]> params
    | None => params
    end in
  let params :=
    match status with
    | Some t => <["status" := value t]> params
    | None => params
    end in
  let params := set_if_truthy "label" label params in
  let params :=
    match favourite with
    | Some true => <["favourite" := "True"]> params
    | _ => params
    end in
  _get_paged_results Space "space" params expand.

Definition get_space (self : Confluence) (space_key : string) (expand : option (list string))
    (w : World) : raises Entity * World * list exchange :=
  _get_single_result self Space ("space/" +:+ space_key) ∅ expand w.

Definition get_space_content (space_key : string) (just_root : bool)
    (expand : option (list string)) : generator :=
  let params : gmap string string := ∅ in
  let params := if just_root then <["depth" := "root"]> params else params in
  _get_paged_results Page ("space/" +:+ space_key +:+ "/content") params expand.

Definition get_space_content_with_type (space_key : string) (content_type : enum_member)
    (just_root : bool) (expand : option (list string)) : generator :=
  let path := "space/" +:+ space_key +:+ "/content/" +:+ value content_type in
  let params : gmap string string := ∅ in
  let params := if just_root then <["depth" := "root"]> params else params in
  _get_paged_results Page path params expand.

(** [(not username and not user_key) or (username and user_key)] *)
Definition lookup_key_rejected (username user_key : option string) : bool :=
  (negb (truthy_str username) && negb (truthy_str user_key))
  || (truthy_str username && truthy_str user_key).

Definition user_lookup_params (username user_key : option string) : gmap string string :=
  let params : gmap string string := ∅ in
  let params := set_if_truthy "username" username params in
  set_if_truthy "key" user_key params.

Definition get_user (self : Confluence) (username user_key : option string)
    (expand : option (list string)) (w : World) : raises Entity * World * list exchange :=
  if lookup_key_rejected username user_key
  then (raise (ValueError "Exactly one of username or user_key must be set"), w, [])
  else _get_single_result self User "user" (user_lookup_params username user_key) expand w.

Definition get_anonymous_user (self : Confluence) (w : World)
  : raises Entity * World * list exchange :=
  _get_single_result self User "user/anonymous" ∅ None w.

Definition get_current_user (self : Confluence) (w : World)
  : raises Entity * World * list exchange :=
  _get_single_result self User "user/current" ∅ None w.

(** Not a generator function itself: the check runs at the call, and only
    the value it returns is a generator. *)
Definition get_user_groups (username user_key : option string) (expand : option (list string))
  : raises generator :=
  if lookup_key_rejected username user_key
  then raise (ValueError "Exactly one of username or user_key must be set")
  else ret (_get_paged_results Group "user/memberof"
              (user_lookup_params username user_key) expand).

Definition get_groups (expand : option (list string)) : generator :=
  _get_paged_results Group "group" ∅ expand.

Definition get_group (self : Confluence) (name : string) (expand : option (list string))
    (w : World) : raises Entity * World * list exchange :=
  _get_single_result self Group ("group/" +:+ name) ∅ expand w.

Definition get_group_members (name : string) (expand : option (list string)) : generator :=
  _get_paged_results User ("group/" +:+ name +:+ "/member") ∅ expand.

Definition get_long_tasks (expand : option (list string)) : generator :=
  _get_paged_results LongTask "longtask" ∅ expand.

Definition get_long_task (task_id : string) (expand : option (list string)) : generator :=
  _get_paged_results LongTask ("longtask/" +:+ task_id) ∅ expand.

(** ** The public surface as data

    One constructor per public method with its arguments, so that a
    statement can range over every operation. *)

Inductive operation : Type :=
| OpGetContent (content_type : string) (space_key title status : option string)
    (posting_day : option date) (expand : option (list string))
| OpSearch (cql : string) (cql_context : option string) (expand : option (list string))
| OpGetSpaces (space_keys : option (list string)) (space_type status : option enum_member)
    (label : option string) (favourite : option bool) (expand : option (list string))
| OpGetSpace (space_key : string) (expand : option (list string))
| OpGetSpaceContent (space_key : string) (just_root : bool) (expand : option (list string))
| OpGetSpaceContentWithType (space_key : string) (content_type : enum_member)
    (just_root : bool) (expand : option (list string))
| OpGetUser (username user_key : option string) (expand : option (list string))
| OpGetAnonymousUser
| OpGetCurrentUser
| OpGetUserGroups (username user_key : option string) (expand : option (list string))
| OpGetGroups (expand : option (list string))
| OpGetGroup (name : string) (expand : option (list string))
| OpGetGroupMembers (name : string) (expand : option (list string))
| OpGetLongTasks (expand : option (list string))
| OpGetLongTask (task_id : string) (expand : option (list string)).

(** What a call hands back: the outcome of one fetch, or a generator
    (unless the call itself raised). *)
Inductive reply : Type :=
| Single (result : raises Entity) (w : World) (xs : list exchange)
| Sequence (g : raises generator).

Definition single (r : raises Entity * World * list exchange) : reply :=
  Single r.1.1 r.1.2 r.2.

Definition call (self : Confluence) (op : operation) (w : World) : reply :=
  match op with
  | OpGetContent content_type space_key title status posting_day expand =>
      Sequence (ret (get_content content_type space_key title status posting_day expand))
  | OpSearch cql cql_context expand => Sequence (ret (search cql cql_context expand))
  | OpGetSpaces space_keys space_type status label favourite expand =>
      Sequence (ret (get_spaces space_keys space_type status label favourite expand))
  | OpGetSpace space_key expand => single (get_space self space_key expand w)
  | OpGetSpaceContent space_key just_root expand =>
      Sequence (ret (get_space_content space_key just_root expand))
  | OpGetSpaceContentWithType space_key content_type just_root expand =>
      Sequence (ret (get_space_content_with_type space_key content_type just_root expand))
  | OpGetUser username user_key expand => single (get_user self username user_key expand w)
  | OpGetAnonymousUser => single (get_anonymous_user self w)
  | OpGetCurrentUser => single (get_current_user self w)
  | OpGetUserGroups username user_key expand =>
      Sequence (get_user_groups username user_key expand)
  | OpGetGroups expand => Sequence (ret (get_groups expand))
  | OpGetGroup name expand => single (get_group self name expand w)
  | OpGetGroupMembers name expand => Sequence (ret (get_group_members name expand))
  | OpGetLongTasks expand => Sequence (ret (get_long_tasks expand))
  | OpGetLongTask task_id expand => Sequence (ret (get_long_task task_id expand))
  end.

(** ** Vocabulary of the statements *)

(** A page in the shape the server documents: an object whose [_links]
    member is an object and whose [results] member is a list. *)
Definition is_page (body : json) (links : list (string * json)) (results : list json) : Prop :=
  py_getitem body "_links" = inr (JObj links) /\ py_getitem body "results" = inr (JArr results).

(** The items of one page as the consumer receives them. *)
Definition yields (item_type : model_class) (results : list json) : list event :=
  map (fun result => EvYield (hydrate item_type result)) results.

(** What the consumer observes of one page: the GET, then each of its
    results, hydrated. *)
Definition page_block (item_type : model_class) (x : exchange) (results : list json)
  : list event :=
  EvGet x :: yields item_type results.

(** A run seen from one step earlier: after GETs that brought no item
    yet, or after items that were already pending. *)
Definition with_gets (pre : list exchange) (r : run) : run :=
  {| run_items := run_items r;
     run_status := run_status r;
     run_log := map EvGet pre ++ run_log r;
     run_gen := run_gen r;
     run_world := run_world r |}.

Definition prepend (item_type : model_class) (pending : list json) (r : run) : run :=
  {| run_items := map (hydrate item_type) pending ++ run_items r;
     run_status := run_status r;
     run_log := yields item_type pending ++ run_log r;
     run_gen := run_gen r;
     run_world := run_world r |}.

(** Draining ends, with enough fuel, in the run [r]. *)
Definition drains (self : Confluence) (g : generator) (w : World) (r : run) : Prop :=
  exists fuel, drain fuel self g w = Some r.

(** The chain of pages that the server hands out when the first request
    goes to [url] with [params] and each next link is followed: every
    page but the last has a [next] link; the last has none. *)
Inductive served (self : Confluence)
  : string -> gmap string string -> World -> list (exchange * list json) -> World -> Prop :=
| served_last url params w body links results w' :
    http_get (build_request self url params) w = (inr body, w') ->
    is_page body links results ->
    assoc "next" links = None ->
    served self url params w [((build_request self url params, inr body), results)] w'
| served_next url params w body links results next w1 pages w' :
    http_get (build_request self url params) w = (inr body, w1) ->
    is_page body links results ->
    assoc "next" links = Some next ->
    served self (_base_url self +:+ py_str next) ∅ w1 pages w' ->
    served self url params w
      (((build_request self url params, inr body), results) :: pages) w'.

(** The complete iteration over such a chain: page after page, each GET
    followed by the items of its page. *)
Definition full_run (item_type : model_class) (pages : list (exchange * list json))
    (w' : World) : run :=
  {| run_items := flat_map (fun pg => map (hydrate item_type) (snd pg)) pages;
     run_status := Some Exhausted;
     run_log := flat_map (fun pg => page_block item_type (fst pg) (snd pg)) pages;
     run_gen := GenDone;
     run_world := w' |}.

(** The URL that the next link of a response designates, read off the
    decoded body: [base_url] followed by the value of [_links.next]. *)
Definition follow_up (self : Confluence) (resp : raises json) : option string :=
  match resp with
  | inr (JObj members) =>
      match assoc "_links" members with
      | Some (JObj links) =>
          match assoc "next" links with
          | Some next => Some (_base_url self +:+ py_str next)
          | None => None
          end
      | _ => None
      end
  | _ => None
  end.

(** A sequence of GETs follows the links: each one goes to the URL that is
    pending, and the response decides which URL is pending next, if any. *)
Fixpoint linked (self : Confluence) (pending : option string) (xs : list exchange) : Prop :=
  match xs with
  | [] => True
  | (req, resp) :: rest =>
      pending = Some (req_url req) /\ linked self (follow_up self resp) rest
  end.

(** The results that a response contributes to the iteration: those that
    the loop body reaches, none when it raises first. *)
Definition delivered (self : Confluence) (resp : raises json) : list json :=
  match (do search_results <- resp; turn_page self ∅ search_results) with
  | inr (_, _, pending) => pending
  | inl _ => []
  end.

(** The URL pending after a sequence of GETs. *)
Fixpoint after (self : Confluence) (pending : option string) (xs : list exchange)
  : option string :=
  match xs with
  | [] => pending
  | (_, resp) :: rest => after self (follow_up self resp) rest
  end.

(** The URL that the generator requests next, if it requests one. *)
Definition heading (self : Confluence) (g : generator) : option string :=
  match g with
  | GenCreated _ path _ _ => Some (_api_base self +:+ "/" +:+ path)
  | GenLoop _ url _ => url
  | GenFor _ _ url _ => url
  | GenDone => None
  end.

(** If the generator sends one more request, it sends it without
    parameters. *)
Definition cleared (g : generator) : Prop :=
  match g with
  | GenCreated _ _ _ _ => False
  | GenLoop _ (Some _) params => params = ∅
  | GenFor _ _ (Some _) params => params = ∅
  | _ => True
  end.

Definition has_class (item_type : model_class) (g : generator) : Prop :=
  match g with
  | GenCreated c _ _ _ => c = item_type
  | GenLoop c _ _ => c = item_type
  | GenFor c _ _ _ => c = item_type
  | GenDone => True
  end.

(** The items that the generator holds and will yield without a request. *)
Definition in_hand (item_type : model_class) (g : generator) : list event :=
  match g with
  | GenFor _ pending _ _ => yields item_type pending
  | _ => []
  end.

(** One GET with everything that its response contributes. *)
Definition block (self : Confluence) (item_type : model_class) (x : exchange) : list event :=
  page_block item_type x (delivered self (snd x)).

(** What follows the GETs of one call of [next]: the item it yielded and
    the items still in hand. *)
Definition tail_of (item_type : model_class) (res : next_result) (g' : generator)
  : list event :=
  match res with
  | Yielded item => EvYield item :: in_hand item_type g'
  | _ => []
  end.

(** The loop body raises [e] on the response of this exchange. *)
Definition fails (self : Confluence) (x : exchange) (e : exn) : Prop :=
  (do search_results <- snd x; turn_page self ∅ search_results) = inl e.

(** The request that the next call of [next] sends first: there is one
    when the generator holds no item and has a URL to go to. *)
Definition pending_request (self : Confluence) (g : generator) : option Request :=
  match g with
  | GenCreated _ path params expand =>
      Some (build_request self (_api_base self +:+ "/" +:+ path) (add_expand params expand))
  | GenLoop _ (Some url) params => Some (build_request self url params)
  | GenFor _ [] (Some url) params => Some (build_request self url params)
  | _ => None
  end.

(** A consumer pulled some items, or pulled to the end. *)
Definition consumed (fuel n : nat) (self : Confluence) (g : generator) (w : World) (r : run)
  : Prop :=
  take fuel n self g w = Some r \/ drain fuel self g w = Some r.

(** The body of a response lacks one of the two structural keys. *)
Definition lacks_key (members : list (string * json)) : Prop :=
  assoc "_links" members = None \/ assoc "results" members = None.

(** A request as it appears on the wire: everything but the channel that
    carried it. *)
Definition on_wire : Type := (string * gmap string string * option (string * string))%type.

Definition wire (r : Request) : on_wire := (req_url r, req_params r, req_auth r).

Definition wire_exchange (x : exchange) : on_wire * raises json := (wire (fst x), snd x).

Definition wire_event (ev : event) : on_wire * raises json + Entity :=
  match ev with
  | EvGet x => inl (wire_exchange x)
  | EvYield item => inr item
  end.

Definition wire_run (r : run)
  : list Entity * option outcome * list (on_wire * raises json + Entity) * generator * World :=
  (run_items r, run_status r, map wire_event (run_log r), run_gen r, run_world r).

Definition wire_next (res : next_result * generator * World * list exchange)
  : next_result * generator * World * list (on_wire * raises json) :=
  (res.1, map wire_exchange res.2).

(** The transport answers by what is on the wire, whatever the channel. *)
Definition channel_blind : Prop :=
  forall r1 r2 w, wire r1 = wire r2 -> http_get r1 w = http_get r2 w.

(** Two clients that put the same requests on the wire. *)
Definition same_wire (c1 c2 : Confluence) : Prop :=
  _base_url c1 = _base_url c2
  /\ _api_base c1 = _api_base c2
  /\ forall url params, wire (build_request c1 url params) = wire (build_request c2 url params).

(** Everything that the caller of an operation can observe: the reply,
    and for a generator what pulling [n] items and what draining it
    bring. *)
Inductive observation : Type :=
| ObsSingle (result : raises Entity) (w : World) (xs : list (on_wire * raises json))
| ObsRaised (e : exn)
| ObsSequence (g : generator)
    (taken drained :
       option (list Entity * option outcome * list (on_wire * raises json + Entity)
               * generator * World)).

Definition observe (fuel n : nat) (self : Confluence) (op : operation) (w : World)
  : observation :=
  match call self op w with
  | Single result w' xs => ObsSingle result w' (map wire_exchange xs)
  | Sequence (inl e) => ObsRaised e
  | Sequence (inr g) =>
      ObsSequence g (option_map wire_run (take fuel n self g w))
        (option_map wire_run (drain fuel self g w))
  end.

(** An [Optional[str]] argument counts as given when it is truthy. *)
Definition supplied (o : option string) : Prop := truthy_str o = true.

(** The items that a log shows as delivered. *)
Definition items_of (log : list event) : list Entity :=
  omap (fun ev => match ev with EvYield item => Some item | EvGet _ => None end) log.


(** A request as this client builds it, and under its base URL. *)
Definition sent_by (self : Confluence) (rq : Request) : Prop :=
  req_auth rq = Some (_basic_auth self)
  /\ req_channel rq = channel_of self
  /\ exists suffix, req_url rq = _base_url self +:+ suffix.

(** The [expand] argument of an operation, for those that take one. *)
Definition op_expand (op : operation) : option (list string) :=
  match op with
  | OpGetContent _ _ _ _ _ expand => expand
  | OpSearch _ _ expand => expand
  | OpGetSpaces _ _ _ _ _ expand => expand
  | OpGetSpace _ expand => expand
  | OpGetSpaceContent _ _ expand => expand
  | OpGetSpaceContentWithType _ _ _ expand => expand
  | OpGetUser _ _ expand => expand
  | OpGetAnonymousUser => None
  | OpGetCurrentUser => None
  | OpGetUserGroups _ _ expand => expand
  | OpGetGroups expand => expand
  | OpGetGroup _ expand => expand
  | OpGetGroupMembers _ expand => expand
  | OpGetLongTasks expand => expand
  | OpGetLongTask _ expand => expand
  end.

(** The value of the [expand] query parameter for such an argument. *)
Definition expand_param (expand : option (list string)) : option string :=
  match expand with
  | Some (x :: xs) => Some (join "," (x :: xs))
  | _ => None
  end.

(** The requests that a caller of an operation can see go out: those of
    the single fetch, or those of whatever it pulls from the generator. *)
Definition requests_seen (self : Confluence) (op : operation) (w : World)
    (rqs : list Request) : Prop :=
  match call self op w with
  | Single _ _ xs => rqs = map fst xs
  | Sequence (inl _) => rqs = []
  | Sequence (inr g) =>
      exists fuel n w0 r, consumed fuel n self g w0 r /\ rqs = requests_of (run_log r)
  end.

(** Every answer of the transport is an empty page with a next link. *)
Definition only_empty_pages : Prop :=
  forall req w,
    exists body links next w',
      http_get req w = (inr body, w')
      /\ is_page body links [] /\ assoc "next" links = Some next.

(** Pages that the server hands out one after the other, each with a
    next link that leads on: from the request to [url] with [params] in
    world [w] to the request that is due after the last of them. *)
Inductive followed (self : Confluence)
  : string -> gmap string string -> World -> list (exchange * list json)
    -> string -> gmap string string -> World -> Prop :=
| followed_none url params w : followed self url params w [] url params w
| followed_page url params w body links results next w1 pages url' params' w' :
    http_get (build_request self url params) w = (inr body, w1) ->
    is_page body links results ->
    assoc "next" links = Some next ->
    followed self (_base_url self +:+ py_str next) ∅ w1 pages url' params' w' ->
    followed self url params w
      (((build_request self url params, inr body), results) :: pages) url' params' w'.

(** The iteration that delivers such pages and then fails on the request
    that is due. *)
Definition failed_run (item_type : model_class) (pages : list (exchange * list json))
    (x : exchange) (e : exn) (w' : World) : run :=
  {| run_items := flat_map (fun pg => map (hydrate item_type) (snd pg)) pages;
     run_status := Some (Failed e);
     run_log := flat_map (fun pg => page_block item_type (fst pg) (snd pg)) pages
                ++ [EvGet x];
     run_gen := GenDone;
     run_world := w' |}.

(** ** The generator as a relation

    [Next self g w res] holds when a call of [next] on [g] in world [w]
    comes back with [res]; it is what [gen_next] computes, without the
    fuel. *)

Inductive Next (self : Confluence)
  : generator -> World -> next_result * generator * World * list exchange -> Prop :=
| Next_done w :
    Next self GenDone w (StopIteration, GenDone, w, [])
| Next_created item_type path params expand w res :
    Next self (GenLoop item_type (Some (_api_base self +:+ "/" +:+ path))
                 (add_expand params expand)) w res ->
    Next self (GenCreated item_type path params expand) w res
| Next_stop item_type params w :
    Next self (GenLoop item_type None params) w (StopIteration, GenDone, w, [])
| Next_raise item_type url params w resp w' x e :
    fetch self url params w = (resp, w', x) ->
    (do search_results <- resp; turn_page self params search_results) = inl e ->
    Next self (GenLoop item_type (Some url) params) w (Raised e, GenDone, w', [x])
| Next_page item_type url params w resp w' x url' params' pending r g' w'' xs :
    fetch self url params w = (resp, w', x) ->
    (do search_results <- resp; turn_page self params search_results)
      = inr (url', params', pending) ->
    Next self (GenFor item_type pending url' params') w' (r, g', w'', xs) ->
    Next self (GenLoop item_type (Some url) params) w (r, g', w'', x :: xs)
| Next_for_nil item_type url params w res :
    Next self (GenLoop item_type url params) w res ->
    Next self (GenFor item_type [] url params) w res
| Next_yield item_type result pending url params w :
    Next self (GenFor item_type (result :: pending) url params) w
      (Yielded (hydrate item_type result), GenFor item_type pending url params, w, []).

(** What a consumer can have seen: it stopped pulling while the generator
    was suspended, or the generator ended, or it received an item and
    went on. *)
Inductive Taken (self : Confluence) : generator -> World -> run -> Prop :=
| Taken_pause g w :
    Taken self g w
      {| run_items := []; run_status := None; run_log := [];
         run_gen := g; run_world := w |}
| Taken_end g w res g' w' xs :
    Next self g w (res, g', w', xs) ->
    (forall item, res <> Yielded item) ->
    Taken self g w (ended xs res g' w')
| Taken_yield g w item g' w' xs r :
    Next self g w (Yielded item, g', w', xs) ->
    Taken self g' w' r ->
    Taken self g w (after_yield xs item r).

(** The same for a consumer that pulls to the end. *)
Inductive Drained (self : Confluence) : generator -> World -> run -> Prop :=
| Drained_end g w res g' w' xs :
    Next self g w (res, g', w', xs) ->
    (forall item, res <> Yielded item) ->
    Drained self g w (ended xs res g' w')
| Drained_yield g w item g' w' xs r :
    Next self g w (Yielded item, g', w', xs) ->
    Drained self g' w' r ->
    Drained self g w (after_yield xs item r).

Lemma gen_next_Next (self : Confluence) (fuel : nat) :
  forall g w res, gen_next fuel self g w = Some res -> Next self g w res.
Proof.
  induction fuel as [|fuel IH]; intros g w res H; [discriminate|].
  destruct g as [cls path params expand | cls [url|] params
                | cls [|result pending] url params | ]; simpl in H.
  - apply Next_created, IH, H.
  - destruct (fetch self url params w) as [[resp w'] x] eqn:F.
    destruct (do search_results <- resp; turn_page self params search_results)
      as [e | [[url' params'] pending]] eqn:T.
    + inversion H; subst. eapply Next_raise; eauto.
    + destruct (gen_next fuel self (GenFor cls pending url' params') w')
        as [[[[r g'] w''] xs]|] eqn:G; [|discriminate].
      inversion H; subst. eapply Next_page; eauto.
  - inversion H; subst. apply Next_stop.
  - apply Next_for_nil, IH, H.
  - inversion H; subst. apply Next_yield.
  - inversion H; subst. apply Next_done.
Qed.

Lemma gen_next_mono (self : Confluence) (fuel : nat) :
  forall fuel' g w res,
    gen_next fuel self g w = Some res -> fuel <= fuel' ->
    gen_next fuel' self g w = Some res.
Proof.
  induction fuel as [|fuel IH]; intros fuel' g w res H Hle; [discriminate|].
  destruct fuel' as [|fuel']; [lia|].
  assert (Hle' : fuel <= fuel') by lia.
  destruct g as [cls path params expand | cls [url|] params
                | cls [|result pending] url params | ]; simpl in H |- *; auto.
  destruct (fetch self url params w) as [[resp w'] x].
  destruct (do search_results <- resp; turn_page self params search_results)
    as [e | [[url' params'] pending]]; auto.
  destruct (gen_next fuel self (GenFor cls pending url' params') w')
    as [[[[r g'] w''] xs]|] eqn:G; [|discriminate].
  rewrite (IH _ _ _ _ G Hle'). exact H.
Qed.

Lemma Next_gen_next (self : Confluence) g w res :
  Next self g w res -> exists fuel, gen_next fuel self g w = Some res.
Proof.
  induction 1 as [ w | cls path params expand w res _ [f IH] | cls params w
                 | cls url params w resp w' x e F T
                 | cls url params w resp w' x url' params' pending r g' w'' xs F T _ [f IH]
                 | cls url params w res _ [f IH]
                 | cls result pending url params w ].
  - exists 1. reflexivity.
  - exists (S f). exact IH.
  - exists 1. reflexivity.
  - exists 1. simpl. rewrite F, T. reflexivity.
  - exists (S f). simpl. rewrite F, T, IH. reflexivity.
  - exists (S f). exact IH.
  - exists 1. reflexivity.
Qed.

(** ** The loop body *)

Lemma req_url_build (self : Confluence) url params :
  req_url (build_request self url params) = url.
Proof. unfold build_request. destruct (_client self); reflexivity. Qed.

Lemma req_params_build (self : Confluence) url params :
  req_params (build_request self url params) = params.
Proof. unfold build_request. destruct (_client self); reflexivity. Qed.

Lemma fetch_inv (self : Confluence) url params w resp w' x :
  fetch self url params w = (resp, w', x) ->
  x = (build_request self url params, resp)
  /\ http_get (build_request self url params) w = (resp, w').
Proof.
  unfold fetch. destruct (http_get (build_request self url params) w) as [r0 w0].
  intros [= <- <- <-]. split; reflexivity.
Qed.

Lemma fetch_intro (self : Confluence) url params w resp w' :
  http_get (build_request self url params) w = (resp, w') ->
  fetch self url params w = (resp, w', (build_request self url params, resp)).
Proof. unfold fetch. intros ->. reflexivity. Qed.

Lemma contains_key_some k links v :
  assoc k links = Some v -> py_contains k (JObj links) = inr true.
Proof.
  intros H. unfold py_contains, ret. rewrite H.
  rewrite bool_decide_eq_true_2; [reflexivity | eauto].
Qed.

Lemma contains_key_none k links :
  assoc k links = None -> py_contains k (JObj links) = inr false.
Proof.
  intros H. unfold py_contains, ret. rewrite H.
  rewrite bool_decide_eq_false_2; [reflexivity | ].
  intros [v Hv]. discriminate.
Qed.

Lemma turn_page_next (self : Confluence) params body links results next :
  is_page body links results ->
  assoc "next" links = Some next ->
  turn_page self params body
  = inr (Some (_base_url self +:+ py_str next), ∅, results).
Proof.
  intros [HL HR] HN. unfold turn_page. rewrite HL. cbn [bind].
  rewrite (contains_key_some _ _ _ HN). cbn [bind py_getitem]. rewrite HN.
  cbn [bind ret]. rewrite HR. reflexivity.
Qed.

Lemma turn_page_last (self : Confluence) params body links results :
  is_page body links results ->
  assoc "next" links = None ->
  turn_page self params body = inr (None, params, results).
Proof.
  intros [HL HR] HN. unfold turn_page. rewrite HL. cbn [bind].
  rewrite (contains_key_none _ _ HN). cbn [bind ret].
  rewrite HR. reflexivity.
Qed.

(** Whether the body raises, and what it iterates, do not depend on the
    parameters in force. *)
Lemma turn_page_params (self : Confluence) p p' body :
  match turn_page self p body, turn_page self p' body with
  | inl e, inl e' => e = e'
  | inr (u, _, pending), inr (u', _, pending') => u = u' /\ pending = pending'
  | _, _ => False
  end.
Proof.
  unfold turn_page.
  destruct (py_getitem body "_links") as [e|links]; simpl; [reflexivity|].
  destruct (py_contains "next" links) as [e|[|]]; simpl; [reflexivity| |].
  - destruct (py_getitem links "next") as [e|next]; simpl; [reflexivity|].
    destruct (py_getitem body "results") as [e|results]; simpl; [reflexivity|].
    destruct (py_iter results) as [e|pending]; simpl; auto.
  - destruct (py_getitem body "results") as [e|results]; simpl; [reflexivity|].
    destruct (py_iter results) as [e|pending]; simpl; auto.
Qed.

Lemma turned_delivered (self : Confluence) p resp u p' pending :
  (do search_results <- resp; turn_page self p search_results) = inr (u, p', pending) ->
  delivered self resp = pending.
Proof.
  unfold delivered. destruct resp as [e|body]; simpl; [discriminate|].
  intros H. pose proof (turn_page_params self p ∅ body) as I. rewrite H in I.
  destruct (turn_page self ∅ body) as [e|[[u0 p0] pending0]]; [contradiction|].
  symmetry. apply I.
Qed.

Lemma raised_delivered (self : Confluence) p resp e :
  (do search_results <- resp; turn_page self p search_results) = inl e ->
  (do search_results <- resp; turn_page self ∅ search_results) = inl e.
Proof.
  destruct resp as [e0|body]; simpl; [auto|].
  intros H. pose proof (turn_page_params self p ∅ body) as I. rewrite H in I.
  destruct (turn_page self ∅ body) as [e1|[[u0 p0] pending0]]; [|contradiction].
  congruence.
Qed.

Lemma turned_not_raised (self : Confluence) p resp u p' pending e :
  (do search_results <- resp; turn_page self p search_results) = inr (u, p', pending) ->
  (do search_results <- resp; turn_page self ∅ search_results) = inl e -> False.
Proof.
  destruct resp as [e0|body]; simpl; [discriminate|].
  intros H H'. pose proof (turn_page_params self p ∅ body) as I.
  rewrite H, H' in I. exact I.
Qed.

(** The URL that the loop keeps for its next pass is the one the response
    designates, and it keeps parameters only when it keeps no URL. *)
Lemma turned_follow_up (self : Confluence) p resp u p' pending :
  (do search_results <- resp; turn_page self p search_results) = inr (u, p', pending) ->
  u = follow_up self resp /\ (u = None \/ p' = ∅).
Proof.
  destruct resp as [e0|body]; simpl; [discriminate|].
  unfold turn_page, follow_up.
  destruct body as [| | | |items|members]; simpl; try discriminate.
  destruct (assoc "_links" members) as [links|]; simpl; [|discriminate].
  assert (tail : forall (state : option string * gmap string string),
    (state.1 = None \/ state.2 = ∅) ->
    (do results <-
       match assoc "results" members with
       | Some v => ret v
       | None => raise (KeyError "results")
       end;
     do pending0 <- py_iter results; ret (state.1, state.2, pending0))
    = inr (u, p', pending) ->
    u = state.1 /\ (u = None \/ p' = ∅)).
  { intros state Hs.
    destruct (assoc "results" members) as [results|]; simpl; [|discriminate].
    destruct (py_iter results) as [e|pending0]; simpl; [discriminate|].
    intros [= <- <- <-]. auto. }
  destruct links as [| | |s|items|links]; simpl; try discriminate.
  - destruct (is_infix "next" s); simpl; [discriminate|].
    apply (tail (None, p)). auto.
  - destruct (existsb (is_str "next") items); simpl; [discriminate|].
    apply (tail (None, p)). auto.
  - destruct (assoc "next" links) as [next|] eqn:HN.
    + rewrite bool_decide_eq_true_2 by eauto. simpl.
      apply (tail (Some (_base_url self +:+ py_str next), ∅)). auto.
    + rewrite bool_decide_eq_false_2 by (intros [v Hv]; discriminate). simpl.
      apply (tail (None, p)). auto.
Qed.

(** A body that lacks [_links] or [results] makes the loop body raise. *)
Lemma lacks_key_raises (self : Confluence) p members :
  lacks_key members ->
  exists e,
    turn_page self p (JObj members) = inl e
    /\ (assoc "_links" members = None -> e = KeyError "_links")
    /\ (forall links, assoc "_links" members = Some (JObj links) -> e = KeyError "results").
Proof.
  intros H. unfold turn_page. simpl.
  destruct (assoc "_links" members) as [links|] eqn:HL; simpl.
  - destruct H as [H|H]; [congruence|]. rewrite H.
    destruct links as [| | |s|items|links]; simpl;
      try (exists TypeError; split; [reflexivity|split; [discriminate|intros ? [=]]]).
    + destruct (is_infix "next" s); simpl;
        [exists TypeError|exists (KeyError "results")];
        (split; [reflexivity|split; [discriminate|intros ? [=]]]).
    + destruct (existsb (is_str "next") items); simpl;
        [exists TypeError|exists (KeyError "results")];
        (split; [reflexivity|split; [discriminate|intros ? [=]]]).
    + exists (KeyError "results"). split; [|split; [discriminate|reflexivity]].
      destruct (assoc "next" links) as [next|] eqn:HN.
      * rewrite bool_decide_eq_true_2 by eauto. reflexivity.
      * rewrite bool_decide_eq_false_2 by (intros [v Hv]; discriminate). reflexivity.
  - exists (KeyError "_links"). split; [reflexivity|split; [reflexivity|discriminate]].
Qed.

(** ** Fuel *)

Lemma drain_unfold (self : Confluence) fuel g w :
  drain (S fuel) self g w =
  match gen_next fuel self g w with
  | None => None
  | Some (Yielded item, g', w', xs) =>
      match drain fuel self g' w' with
      | Some r => Some (after_yield xs item r)
      | None => None
      end
  | Some (res, g', w', xs) => Some (ended xs res g' w')
  end.
Proof. reflexivity. Qed.

Lemma take_unfold (self : Confluence) fuel n g w :
  take fuel (S n) self g w =
  match gen_next fuel self g w with
  | None => None
  | Some (Yielded item, g', w', xs) =>
      match take fuel n self g' w' with
      | Some r => Some (after_yield xs item r)
      | None => None
      end
  | Some (res, g', w', xs) => Some (ended xs res g' w')
  end.
Proof. reflexivity. Qed.

Lemma drain_mono (self : Confluence) (fuel : nat) :
  forall fuel' g w r,
    drain fuel self g w = Some r -> fuel <= fuel' -> drain fuel' self g w = Some r.
Proof.
  induction fuel as [|fuel IH]; intros fuel' g w r H Hle; [discriminate|].
  destruct fuel' as [|fuel']; [lia|].
  assert (Hle' : fuel <= fuel') by lia.
  rewrite drain_unfold in H |- *.
  destruct (gen_next fuel self g w) as [[[[res g'] w'] xs]|] eqn:G; [|discriminate].
  rewrite (gen_next_mono self fuel fuel' g w _ G Hle').
  destruct res; auto.
  destruct (drain fuel self g' w') as [r'|] eqn:D; [|discriminate].
  rewrite (IH fuel' g' w' r' D Hle'). exact H.
Qed.

Lemma take_mono (self : Confluence) (n : nat) :
  forall fuel fuel' g w r,
    take fuel n self g w = Some r -> fuel <= fuel' -> take fuel' n self g w = Some r.
Proof.
  induction n as [|n IH]; intros fuel fuel' g w r H Hle; [exact H|].
  rewrite take_unfold in H |- *.
  destruct (gen_next fuel self g w) as [[[[res g'] w'] xs]|] eqn:G; [|discriminate].
  rewrite (gen_next_mono self fuel fuel' g w _ G Hle).
  destruct res; auto.
  destruct (take fuel n self g' w') as [r'|] eqn:D; [|discriminate].
  rewrite (IH fuel fuel' g' w' r' D Hle). exact H.
Qed.

(** A drained run is what [take] returns once it asks for one item more
    than there are. *)
Lemma drain_take (self : Confluence) (fuel : nat) :
  forall g w r,
    drain fuel self g w = Some r ->
    take fuel (S (length (run_items r))) self g w = Some r.
Proof.
  induction fuel as [|fuel IH]; intros g w r H; [discriminate|].
  rewrite drain_unfold in H. rewrite take_unfold.
  destruct (gen_next fuel self g w) as [[[[res g'] w'] xs]|] eqn:G; [|discriminate].
  rewrite (gen_next_mono self fuel (S fuel) g w _ G) by lia.
  destruct res; try (injection H as <-; reflexivity).
  destruct (drain fuel self g' w') as [r'|] eqn:D; [|discriminate].
  injection H as <-.
  change (length (run_items (after_yield xs item r'))) with (S (length (run_items r'))).
  rewrite (take_mono self _ fuel (S fuel) g' w' r' (IH g' w' r' D)) by lia.
  reflexivity.
Qed.

(** ** Runs that the code does produce *)

Lemma with_gets_nil (r : run) : with_gets [] r = r.
Proof. destruct r; reflexivity. Qed.

Lemma prepend_nil item_type (r : run) : prepend item_type [] r = r.
Proof. destruct r; reflexivity. Qed.

Lemma drains_prefix (self : Confluence) g1 w1 g2 w2 pre :
  (forall f res g' w' xs,
      gen_next f self g1 w1 = Some (res, g', w', xs) ->
      gen_next (S f) self g2 w2 = Some (res, g', w', pre ++ xs)) ->
  forall r, drains self g1 w1 r -> drains self g2 w2 (with_gets pre r).
Proof.
  intros Hstep r [f D]. exists (S f).
  destruct f as [|f]; [discriminate|].
  rewrite drain_unfold in D.
  destruct (gen_next f self g1 w1) as [[[[res g'] w'] xs]|] eqn:G; [|discriminate].
  rewrite drain_unfold, (Hstep _ _ _ _ _ G).
  destruct res.
  - destruct (drain f self g' w') as [r'|] eqn:D'; [|discriminate].
    rewrite (drain_mono self f (S f) g' w' r' D') by lia.
    injection D as <-. unfold with_gets, after_yield. simpl.
    rewrite map_app, <- app_assoc. reflexivity.
  - injection D as <-. unfold with_gets, ended. simpl. rewrite map_app. reflexivity.
  - injection D as <-. unfold with_gets, ended. simpl. rewrite map_app. reflexivity.
Qed.

Lemma drains_created (self : Confluence) item_type path params expand w r :
  drains self (GenLoop item_type (Some (_api_base self +:+ "/" +:+ path))
                 (add_expand params expand)) w r ->
  drains self (GenCreated item_type path params expand) w r.
Proof.
  intros D. rewrite <- (with_gets_nil r).
  eapply drains_prefix; [|exact D]. intros f res g' w' xs G. exact G.
Qed.

Lemma drains_for_nil (self : Confluence) item_type url params w r :
  drains self (GenLoop item_type url params) w r ->
  drains self (GenFor item_type [] url params) w r.
Proof.
  intros D. rewrite <- (with_gets_nil r).
  eapply drains_prefix; [|exact D]. intros f res g' w' xs G. exact G.
Qed.

Lemma drains_page (self : Confluence) item_type url params w resp w' x url' params' pending r :
  fetch self url params w = (resp, w', x) ->
  (do search_results <- resp; turn_page self params search_results)
    = inr (url', params', pending) ->
  drains self (GenFor item_type pending url' params') w' r ->
  drains self (GenLoop item_type (Some url) params) w (with_gets [x] r).
Proof.
  intros F T D. eapply drains_prefix; [|exact D].
  intros f res g' w'' xs G. simpl. rewrite F, T, G. reflexivity.
Qed.

Lemma drains_stop (self : Confluence) item_type params w :
  drains self (GenLoop item_type None params) w (ended [] StopIteration GenDone w).
Proof. exists 2. reflexivity. Qed.

Lemma drains_raise (self : Confluence) item_type url params w resp w' x e :
  fetch self url params w = (resp, w', x) ->
  (do search_results <- resp; turn_page self params search_results) = inl e ->
  drains self (GenLoop item_type (Some url) params) w (ended [x] (Raised e) GenDone w').
Proof.
  intros F T. exists 2. rewrite drain_unfold. simpl. rewrite F, T. reflexivity.
Qed.

Lemma drains_yields (self : Confluence) item_type url params w r :
  drains self (GenFor item_type [] url params) w r ->
  forall pending,
    drains self (GenFor item_type pending url params) w (prepend item_type pending r).
Proof.
  intros D pending. induction pending as [|result pending IH].
  - rewrite prepend_nil. exact D.
  - destruct IH as [f IH]. exists (S (S f)).
    rewrite drain_unfold. cbn -[drain].
    rewrite (drain_mono self f (S f) _ _ _ IH) by lia. reflexivity.
Qed.

Lemma drains_served (self : Confluence) item_type url params w pages w' :
  served self url params w pages w' ->
  drains self (GenLoop item_type (Some url) params) w (full_run item_type pages w').
Proof.
  induction 1 as [url params w body links results w' H P N
                 |url params w body links results next w1 pages w' H P N _ IH].
  - pose proof (drains_yields self item_type None params w' _
                  (drains_for_nil self _ _ _ _ _ (drains_stop self item_type params w'))
                  results) as D.
    pose proof (drains_page self item_type url params w (inr body) w' _ _ _ _ _
                  (fetch_intro self _ _ _ _ _ H)
                  (turn_page_last self params body links results P N) D) as D'.
    destruct D' as [f D']. exists f. rewrite D'. unfold full_run, with_gets, prepend, ended.
    simpl. rewrite !app_nil_r. reflexivity.
  - pose proof (drains_yields self item_type _ _ w1 _
                  (drains_for_nil self _ _ _ _ _ IH) results) as D.
    pose proof (drains_page self item_type url params w (inr body) w1 _ _ _ _ _
                  (fetch_intro self _ _ _ _ _ H)
                  (turn_page_next self params body links results next P N) D) as D'.
    destruct D' as [f D']. exists f. rewrite D'. reflexivity.
Qed.

(** The items that are already pending come out without a request. *)
Lemma take_pending (self : Confluence) item_type url params w fuel :
  forall n pending,
    n <= length pending ->
    take (S fuel) n self (GenFor item_type pending url params) w
    = Some {| run_items := map (hydrate item_type) (firstn n pending);
              run_status := None;
              run_log := yields item_type (firstn n pending);
              run_gen := GenFor item_type (skipn n pending) url params;
              run_world := w |}.
Proof.
  induction n as [|n IH]; intros pending Hn; [reflexivity|].
  destruct pending as [|result pending]; simpl in Hn; [lia|].
  rewrite take_unfold. cbn -[take]. rewrite IH by lia. reflexivity.
Qed.

(** ** What every call of [next] preserves *)

Lemma Next_cleared (self : Confluence) g w res :
  Next self g w res ->
  cleared g ->
  cleared res.1.1.2 /\ Forall (fun rq => req_params rq = ∅) (map fst res.2).
Proof.
  induction 1 as [ w | cls path params expand w res _ IH | cls params w
                 | cls url params w resp w' x e F T
                 | cls url params w resp w' x url' params' pending r g' w'' xs F T _ IH
                 | cls url params w res _ IH
                 | cls result pending url params w ]; simpl; intros C.
  - split; [exact I|constructor].
  - contradiction.
  - split; [exact I|constructor].
  - apply fetch_inv in F as [-> _]. split; [exact I|].
    constructor; [|constructor]. simpl. rewrite req_params_build. exact C.
  - apply fetch_inv in F as [-> _]. apply turned_follow_up in T as [_ T].
    destruct IH as [IH1 IH2].
    { destruct url'; simpl; [|exact I]. destruct T; [discriminate|assumption]. }
    split; [exact IH1|].
    constructor; [simpl; rewrite req_params_build; exact C|exact IH2].
  - apply IH. destruct url; exact C.
  - split; [exact C|constructor].
Qed.

Lemma Next_first (self : Confluence) item_type path params expand w res :
  Next self (GenCreated item_type path params expand) w res ->
  exists resp rest,
    res.2 = (build_request self (_api_base self +:+ "/" +:+ path)
               (add_expand params expand), resp) :: rest
    /\ Forall (fun rq => req_params rq = ∅) (map fst rest)
    /\ cleared res.1.1.2.
Proof.
  intros H. inversion H as [ | ? ? ? ? ? ? H' | | | | | ]; subst. clear H.
  inversion H' as [ | | | ? ? ? ? resp w' x e F T
                  | ? ? ? ? resp w' x url' params' pending r g' w'' xs F T N | | ]; subst.
  - apply fetch_inv in F as [-> _]. exists resp, []. simpl.
    split; [reflexivity|split; [constructor|exact I]].
  - apply fetch_inv in F as [-> _]. apply turned_follow_up in T as [_ T].
    apply Next_cleared in N as [N1 N2].
    + exists resp, xs. simpl. auto.
    + destruct url'; simpl; [|exact I]. destruct T; [discriminate|assumption].
Qed.

Lemma linked_none (self : Confluence) xs : linked self None xs -> xs = [].
Proof. destruct xs as [|[req resp] xs]; [reflexivity|]. intros [H _]. discriminate. Qed.

Lemma linked_app (self : Confluence) :
  forall xs pending ys,
    linked self pending xs ->
    linked self (after self pending xs) ys ->
    linked self pending (xs ++ ys).
Proof.
  induction xs as [|[req resp] xs IH]; intros pending ys Hx Hy; [exact Hy|].
  destruct Hx as [Hp Hx]. split; [exact Hp|]. apply IH; assumption.
Qed.

Lemma Next_linked (self : Confluence) g w res :
  Next self g w res ->
  linked self (heading self g) res.2
  /\ (heading self res.1.1.2 = after self (heading self g) res.2
      \/ heading self res.1.1.2 = None).
Proof.
  induction 1 as [ w | cls path params expand w res _ IH | cls params w
                 | cls url params w resp w' x e F T
                 | cls url params w resp w' x url' params' pending r g' w'' xs F T _ IH
                 | cls url params w res _ IH
                 | cls result pending url params w ]; simpl.
  - auto.
  - exact IH.
  - auto.
  - apply fetch_inv in F as [-> _]. rewrite req_url_build. auto.
  - apply fetch_inv in F as [-> _]. rewrite req_url_build.
    apply turned_follow_up in T as [-> _]. simpl in IH. destruct IH as [IH1 IH2]. auto.
  - exact IH.
  - auto.
Qed.

Lemma Next_class (self : Confluence) g w res :
  Next self g w res ->
  forall item_type, has_class item_type g -> has_class item_type res.1.1.2.
Proof.
  induction 1; simpl; intros c C; auto.
Qed.

Lemma Next_blocks (self : Confluence) g w res :
  Next self g w res ->
  forall item_type,
    has_class item_type g ->
    map EvGet res.2 ++ tail_of item_type res.1.1.1 res.1.1.2
    = in_hand item_type g ++ flat_map (block self item_type) res.2.
Proof.
  induction 1 as [ w | cls path params expand w res _ IH | cls params w
                 | cls url params w resp w' x e F T
                 | cls url params w resp w' x url' params' pending r g' w'' xs F T _ IH
                 | cls url params w res _ IH
                 | cls result pending url params w ]; simpl; intros c C.
  - reflexivity.
  - apply (IH c C).
  - reflexivity.
  - apply fetch_inv in F as [-> _]. unfold block, page_block, delivered. simpl snd.
    rewrite (raised_delivered self _ _ _ T). reflexivity.
  - apply fetch_inv in F as [-> _]. unfold block at 1, page_block. simpl snd.
    rewrite (turned_delivered self _ _ _ _ _ T).
    specialize (IH c C). simpl in IH. rewrite IH. reflexivity.
  - apply (IH c C).
  - subst c. rewrite app_nil_r. reflexivity.
Qed.

Lemma Next_fails (self : Confluence) g w res :
  Next self g w res ->
  forall pre x post e,
    res.2 = pre ++ x :: post ->
    fails self x e ->
    post = [] /\ res.1.1.1 = Raised e /\ res.1.1.2 = GenDone.
Proof.
  induction 1 as [ w | cls path params expand w res _ IH | cls params w
                 | cls url params w resp w' x e F T
                 | cls url params w resp w' x url' params' pending r g' w'' xs F T _ IH
                 | cls url params w res _ IH
                 | cls result pending url params w ]; simpl; intros pre x0 post e0 E B.
  - destruct pre; discriminate.
  - eapply IH; eassumption.
  - destruct pre; discriminate.
  - apply fetch_inv in F as [-> _].
    destruct pre as [|y pre]; [|destruct pre; discriminate].
    injection E as <- <-. unfold fails in B. simpl in B.
    rewrite (raised_delivered self _ _ _ T) in B. injection B as <-. auto.
  - apply fetch_inv in F as [-> _].
    destruct pre as [|y pre].
    + injection E as <- <-. unfold fails in B. simpl snd in B.
      destruct (turned_not_raised self _ _ _ _ _ _ T B).
    + injection E as <- E. eapply IH; eassumption.
  - eapply IH; eassumption.
  - destruct pre; discriminate.
Qed.

Lemma Next_raised (self : Confluence) g w res :
  Next self g w res ->
  forall e,
    res.1.1.1 = Raised e ->
    exists pre x, res.2 = pre ++ [x] /\ fails self x e.
Proof.
  induction 1 as [ w | cls path params expand w res _ IH | cls params w
                 | cls url params w resp w' x e F T
                 | cls url params w resp w' x url' params' pending r g' w'' xs F T _ IH
                 | cls url params w res _ IH
                 | cls result pending url params w ]; simpl; intros e0 E;
    try discriminate; try (apply IH; exact E).
  - injection E as <-. apply fetch_inv in F as [-> _].
    exists [], (build_request self url params, resp). split; [reflexivity|].
    unfold fails. simpl snd. exact (raised_delivered self _ _ _ T).
  - simpl in IH. destruct (IH e0 E) as (pre & y & -> & B). exists (x :: pre), y. auto.
Qed.

(** ** What every consumer observes *)

Lemma take_Taken (self : Confluence) fuel (n : nat) :
  forall g w r, take fuel n self g w = Some r -> Taken self g w r.
Proof.
  induction n as [|n IH]; intros g w r H.
  - injection H as <-. constructor.
  - rewrite take_unfold in H.
    destruct (gen_next fuel self g w) as [[[[res g'] w'] xs]|] eqn:G; [|discriminate].
    apply gen_next_Next in G. destruct res.
    + destruct (take fuel n self g' w') as [r'|] eqn:D; [|discriminate].
      injection H as <-. eapply Taken_yield; eauto.
    + injection H as <-. eapply Taken_end; [exact G|discriminate].
    + injection H as <-. eapply Taken_end; [exact G|discriminate].
Qed.

Lemma drain_Drained (self : Confluence) (fuel : nat) :
  forall g w r, drain fuel self g w = Some r -> Drained self g w r.
Proof.
  induction fuel as [|fuel IH]; intros g w r H; [discriminate|].
  rewrite drain_unfold in H.
  destruct (gen_next fuel self g w) as [[[[res g'] w'] xs]|] eqn:G; [|discriminate].
  apply gen_next_Next in G. destruct res.
  - destruct (drain fuel self g' w') as [r'|] eqn:D; [|discriminate].
    injection H as <-. eapply Drained_yield; eauto.
  - injection H as <-. eapply Drained_end; [exact G|discriminate].
  - injection H as <-. eapply Drained_end; [exact G|discriminate].
Qed.

Lemma Drained_Taken (self : Confluence) g w r : Drained self g w r -> Taken self g w r.
Proof. induction 1; [eapply Taken_end|eapply Taken_yield]; eauto. Qed.

Lemma gets_of_gets (xs : list exchange) : gets_of (map EvGet xs) = xs.
Proof. induction xs as [|x xs IH]; simpl; [reflexivity|]. f_equal. exact IH. Qed.

Lemma gets_of_app (l1 l2 : list event) : gets_of (l1 ++ l2) = gets_of l1 ++ gets_of l2.
Proof. apply omap_app. Qed.

Lemma gets_of_after_yield xs item (r : run) :
  gets_of (run_log (after_yield xs item r)) = xs ++ gets_of (run_log r).
Proof. simpl. rewrite gets_of_app, gets_of_gets. reflexivity. Qed.

Lemma gets_of_ended xs res g (w : World) : gets_of (run_log (ended xs res g w)) = xs.
Proof. simpl. apply gets_of_gets. Qed.

Lemma split_gets (xs : list exchange) :
  forall l1 x l2,
    map EvGet xs = l1 ++ EvGet x :: l2 ->
    exists pre post, xs = pre ++ x :: post /\ l2 = map EvGet post.
Proof.
  induction xs as [|y xs IH]; intros l1 x l2 E.
  - destruct l1; discriminate.
  - destruct l1 as [|ev l1]; simpl in E.
    + injection E as -> <-. exists [], xs. auto.
    + injection E as _ E. destruct (IH _ _ _ E) as (pre & post & -> & ->).
      exists (y :: pre), post. auto.
Qed.

Lemma split_gets_yield (xs : list exchange) item (log : list event) :
  forall l1 x l2,
    map EvGet xs ++ EvYield item :: log = l1 ++ EvGet x :: l2 ->
    (exists pre post, xs = pre ++ x :: post)
    \/ (exists l1', log = l1' ++ EvGet x :: l2).
Proof.
  induction xs as [|y xs IH]; intros l1 x l2 E; simpl in E.
  - destruct l1 as [|ev l1]; simpl in E; [discriminate|].
    injection E as _ E. right. eauto.
  - destruct l1 as [|ev l1]; simpl in E.
    + injection E as -> _. left. exists [], xs. reflexivity.
    + injection E as _ E. destruct (IH _ _ _ E) as [(pre & post & ->)|R].
      * left. exists (y :: pre), post. reflexivity.
      * right. exact R.
Qed.

Lemma Taken_cleared (self : Confluence) g w r :
  Taken self g w r ->
  cleared g ->
  Forall (fun rq => req_params rq = ∅) (requests_of (run_log r)).
Proof.
  unfold requests_of.
  induction 1 as [g w|g w res g' w' xs N _|g w item g' w' xs r N _ IH]; intros C.
  - constructor.
  - rewrite gets_of_ended. apply (Next_cleared self _ _ _ N C).
  - rewrite gets_of_after_yield, map_app. apply Forall_app.
    destruct (Next_cleared self _ _ _ N C) as [C' F]. auto.
Qed.

Lemma Taken_linked (self : Confluence) g w r :
  Taken self g w r ->
  linked self (heading self g) (gets_of (run_log r)).
Proof.
  induction 1 as [g w|g w res g' w' xs N _|g w item g' w' xs r N _ IH].
  - exact I.
  - rewrite gets_of_ended. apply (Next_linked self _ _ _ N).
  - rewrite gets_of_after_yield.
    destruct (Next_linked self _ _ _ N) as [L [E|E]]; simpl in L, E.
    + apply linked_app; [exact L|]. rewrite <- E. exact IH.
    + rewrite E in IH. apply linked_none in IH. rewrite IH, app_nil_r. exact L.
Qed.

Lemma Taken_fails (self : Confluence) g w r :
  Taken self g w r ->
  forall l1 x l2 e,
    run_log r = l1 ++ EvGet x :: l2 ->
    fails self x e ->
    l2 = [] /\ run_status r = Some (Failed e) /\ run_gen r = GenDone.
Proof.
  induction 1 as [g w|g w res g' w' xs N _|g w item g' w' xs r N _ IH];
    intros l1 x l2 e E B.
  - destruct l1; discriminate.
  - simpl in E. apply split_gets in E as (pre & post & E & ->).
    destruct (Next_fails self _ _ _ N pre x post e E B) as (-> & R & G).
    simpl in R, G. subst. auto.
  - simpl in E. apply split_gets_yield in E as [(pre & post & E)|(l1' & E)].
    + destruct (Next_fails self _ _ _ N pre x post e E B) as (_ & R & _). discriminate.
    + apply (IH _ _ _ _ E B).
Qed.

Lemma Drained_blocks (self : Confluence) g w r :
  Drained self g w r ->
  forall item_type,
    has_class item_type g ->
    run_log r = in_hand item_type g ++ flat_map (block self item_type) (gets_of (run_log r)).
Proof.
  induction 1 as [g w res g' w' xs N Y|g w item g' w' xs r N _ IH]; intros c C.
  - rewrite gets_of_ended. pose proof (Next_blocks self _ _ _ N c C) as B. simpl in B.
    rewrite <- B. simpl. destruct res; [destruct (Y item); reflexivity| |];
      rewrite app_nil_r; reflexivity.
  - rewrite gets_of_after_yield, flat_map_app, app_assoc.
    pose proof (Next_blocks self _ _ _ N c C) as B. simpl in B. rewrite <- B.
    pose proof (IH c (Next_class self _ _ _ N c C)) as IH'. simpl in IH'.
    simpl. rewrite <- !app_assoc. simpl. rewrite <- IH'. reflexivity.
Qed.

Lemma Drained_failed (self : Confluence) g w r :
  Drained self g w r ->
  forall e,
    run_status r = Some (Failed e) ->
    exists pre x, gets_of (run_log r) = pre ++ [x] /\ fails self x e.
Proof.
  induction 1 as [g w res g' w' xs N Y|g w item g' w' xs r N _ IH]; intros e E.
  - rewrite gets_of_ended. simpl in E.
    destruct res; try discriminate. injection E as ->.
    apply (Next_raised self _ _ _ N e). reflexivity.
  - rewrite gets_of_after_yield. destruct (IH e E) as (pre & x & -> & B).
    exists (xs ++ pre), x. rewrite app_assoc. auto.
Qed.

Lemma consumed_Taken (self : Confluence) fuel n g w r :
  consumed fuel n self g w r -> Taken self g w r.
Proof.
  intros [H|H]; [exact (take_Taken self _ _ _ _ _ H)|].
  apply Drained_Taken. exact (drain_Drained self _ _ _ _ H).
Qed.

Lemma Taken_first (self : Confluence) item_type path params expand w r :
  Taken self (GenCreated item_type path params expand) w r ->
  forall first rest,
    requests_of (run_log r) = first :: rest ->
    first = build_request self (_api_base self +:+ "/" +:+ path) (add_expand params expand)
    /\ Forall (fun rq => req_params rq = ∅) rest.
Proof.
  unfold requests_of. intros T first rest E.
  inversion T as [g w0|g w0 res g' w' xs N _|g w0 item g' w' xs r' N T']; subst.
  - discriminate.
  - rewrite gets_of_ended in E.
    destruct (Next_first self _ _ _ _ _ _ N) as (resp & rest0 & X & F & _).
    simpl in X. subst xs. injection E as <- <-. auto.
  - rewrite gets_of_after_yield, map_app in E.
    destruct (Next_first self _ _ _ _ _ _ N) as (resp & rest0 & X & F & C).
    simpl in X, C. subst xs. injection E as <- <-. split; [reflexivity|].
    apply Forall_app. split; [exact F|]. exact (Taken_cleared self _ _ _ T' C).
Qed.

Lemma linked_adjacent (self : Confluence) :
  forall pre pending x1 x2 post,
    linked self pending (pre ++ x1 :: x2 :: post) ->
    follow_up self (snd x1) = Some (req_url (fst x2)).
Proof.
  induction pre as [|[req resp] pre IH]; intros pending [req1 resp1] [req2 resp2] post L.
  - destruct L as [_ [L _]]. exact L.
  - destruct L as [_ L]. exact (IH _ _ _ _ L).
Qed.

Lemma linked_final (self : Confluence) :
  forall pre pending x post,
    linked self pending (pre ++ x :: post) ->
    follow_up self (snd x) = None ->
    post = [].
Proof.
  induction pre as [|[req resp] pre IH]; intros pending [req1 resp1] post L E.
  - destruct L as [_ L]. simpl in E. rewrite E in L. exact (linked_none self _ L).
  - destruct L as [_ L]. exact (IH _ _ _ L E).
Qed.

Lemma page_not_fails (self : Confluence) req body links results e :
  is_page body links results ->
  fails self (req, inr body) e -> False.
Proof.
  intros P. unfold fails. simpl.
  destruct (assoc "next" links) as [next|] eqn:N.
  - rewrite (turn_page_next self ∅ body links results next P N). discriminate.
  - rewrite (turn_page_last self ∅ body links results P N). discriminate.
Qed.

Lemma requests_of_full_run item_type pages (w' : World) :
  gets_of (run_log (full_run item_type pages w')) = map fst pages.
Proof.
  simpl. induction pages as [|[x results] pages IH]; [reflexivity|].
  simpl. unfold yields. rewrite gets_of_app, IH. f_equal.
  clear. induction results as [|result results IH]; [reflexivity|exact IH].
Qed.

(** ** The claims *)

(** C9.  A paged iteration is finite.  When the chain of responses followed
    from the initial URL reaches a page whose [_links] has no [next] key,
    draining the generator terminates as soon as it has enough fuel: it
    ends normally after that page, has issued one request per page of the
    chain, and has yielded the finitely many items of those pages. *)
Theorem paged_iteration_terminates (self : Confluence) item_type path params expand w pages w' :
  served self (_api_base self +:+ "/" +:+ path) (add_expand params expand) w pages w' ->
  exists fuel0,
    forall fuel, fuel0 <= fuel ->
      drain fuel self (_get_paged_results item_type path params expand) w
      = Some (full_run item_type pages w')
      /\ length (requests_of (run_log (full_run item_type pages w'))) = length pages
      /\ run_status (full_run item_type pages w') = Some Exhausted.
Proof.
  intros S.
  destruct (drains_created self item_type path params expand w _
              (drains_served self item_type _ _ _ _ _ S)) as [fuel0 D].
  exists fuel0. intros fuel Hle. split; [|split].
  - exact (drain_mono self fuel0 fuel _ _ _ D Hle).
  - unfold requests_of. rewrite requests_of_full_run, !length_map. reflexivity.
  - reflexivity.
Qed.

(** C5.  Whatever a consumer pulls from a paged query, the first request
    carries the parameters assembled locally (with [expand] merged in),
    and no request after it carries any parameter: the loop body keeps a
    URL for another pass only together with an emptied mapping. *)
Theorem params_cleared_after_first_page (self : Confluence) item_type path params expand
    w fuel n r :
  consumed fuel n self (_get_paged_results item_type path params expand) w r ->
  (forall first rest,
      requests_of (run_log r) = first :: rest ->
      req_params first = add_expand params expand
      /\ Forall (fun rq => req_params rq = ∅) rest)
  /\ (forall p body url p' pending,
        turn_page self p body = inr (Some url, p', pending) -> p' = ∅).
Proof.
  intros H. apply consumed_Taken in H. split.
  - intros first rest E. destruct (Taken_first self _ _ _ _ _ _ H _ _ E) as [-> F].
    rewrite req_params_build. auto.
  - intros p body url p' pending T.
    destruct (turned_follow_up self p (inr body) _ _ _ T) as [_ [C|C]];
      [discriminate|exact C].
Qed.

(** C6.  Whatever a consumer pulls from a paged query, the first request
    goes to [api_base/path]; a request that follows the response [resp]
    goes exactly to [base_url] followed by the value of [resp]'s
    [_links.next]; after a response without such a link no request
    follows, and a drained iteration whose last page is well formed and
    has no [next] ends normally after it. *)
Theorem next_link_followed (self : Confluence) item_type path params expand w fuel n r :
  consumed fuel n self (_get_paged_results item_type path params expand) w r ->
  (forall first rest,
      requests_of (run_log r) = first :: rest ->
      req_url first = _api_base self +:+ "/" +:+ path)
  /\ (forall pre req1 resp1 req2 resp2 post,
        gets_of (run_log r) = pre ++ (req1, resp1) :: (req2, resp2) :: post ->
        exists members links next,
          resp1 = inr (JObj members)
          /\ assoc "_links" members = Some (JObj links)
          /\ assoc "next" links = Some next
          /\ req_url req2 = _base_url self +:+ py_str next)
  /\ (forall pre req resp post,
        gets_of (run_log r) = pre ++ (req, resp) :: post ->
        follow_up self resp = None ->
        post = [])
  /\ (forall pre req body links results,
        drain fuel self (_get_paged_results item_type path params expand) w = Some r ->
        gets_of (run_log r) = pre ++ [(req, inr body)] ->
        is_page body links results ->
        assoc "next" links = None ->
        run_status r = Some Exhausted).
Proof.
  intros H. pose proof (consumed_Taken self _ _ _ _ _ H) as T.
  pose proof (Taken_linked self _ _ _ T) as L. simpl heading in L.
  split; [|split; [|split]].
  - intros first rest E. destruct (Taken_first self _ _ _ _ _ _ T _ _ E) as [-> _].
    apply req_url_build.
  - intros pre req1 resp1 req2 resp2 post E. rewrite E in L.
    apply linked_adjacent in L. simpl in L. unfold follow_up in L.
    destruct resp1 as [e|[| | | | |members]]; try discriminate.
    destruct (assoc "_links" members) as [[| | | | |links]|] eqn:EL; try discriminate.
    destruct (assoc "next" links) as [next|] eqn:EN; [|discriminate].
    injection L as L. exists members, links, next. auto.
  - intros pre req resp post E F. rewrite E in L. exact (linked_final self _ _ _ _ L F).
  - intros pre req body links results D E P N.
    apply drain_Drained in D.
    destruct (run_status r) as [[|e]|] eqn:St.
    + reflexivity.
    + destruct (Drained_failed self _ _ _ D e St) as (pre' & x & E' & B).
      rewrite E in E'. apply app_inj_tail in E' as [_ <-].
      destruct (page_not_fails self _ _ _ _ _ P B).
    + exfalso. clear -D St. induction D as [g w res g' w' xs N Y|]; [|auto].
      simpl in St. destruct res; discriminate.
Qed.

(** C7.  A page whose body lacks [_links] or [results] fails the
    iteration at that page.  The call of [next] that fetches it raises
    (the [KeyError] of [_links] when that key is missing, read first; the
    [KeyError] of [results] when only that one is), having sent that one
    request and yielded nothing; the generator is finished, so any later
    [next] stops at once without a request.  And in whatever a consumer
    has observed of a paged query, nothing follows the GET of such a
    page: no item of it, no later request. *)
Theorem malformed_page_fails (self : Confluence) :
  (forall g w req members w',
      pending_request self g = Some req ->
      http_get req w = (inr (JObj members), w') ->
      lacks_key members ->
      exists e,
        (forall fuel,
            gen_next (S (S fuel)) self g w
            = Some (Raised e, GenDone, w', [(req, inr (JObj members))])
            /\ drain (S (S (S fuel))) self g w
              = Some (ended [(req, inr (JObj members))] (Raised e) GenDone w')
            /\ gen_next (S fuel) self GenDone w' = Some (StopIteration, GenDone, w', []))
        /\ (assoc "_links" members = None -> e = KeyError "_links")
        /\ (forall links,
              assoc "_links" members = Some (JObj links) -> e = KeyError "results"))
  /\ (forall item_type path params expand w fuel n r l1 req members l2,
        consumed fuel n self (_get_paged_results item_type path params expand) w r ->
        run_log r = l1 ++ EvGet (req, inr (JObj members)) :: l2 ->
        lacks_key members ->
        l2 = []
        /\ (exists e, run_status r = Some (Failed e))
        /\ run_gen r = GenDone).
Proof.
  split.
  - intros g w req members w' P H K.
    assert (step : forall item_type url params fuel e,
      req = build_request self url params ->
      turn_page self params (JObj members) = inl e ->
      gen_next (S fuel) self (GenLoop item_type (Some url) params) w
      = Some (Raised e, GenDone, w', [(req, inr (JObj members))])).
    { intros c url params fuel e -> T. cbn [gen_next].
      rewrite (fetch_intro self _ _ _ _ _ H). cbn [bind]. rewrite T. reflexivity. }
    assert (first : exists e,
      (forall fuel, gen_next (S (S fuel)) self g w
                    = Some (Raised e, GenDone, w', [(req, inr (JObj members))]))
      /\ (assoc "_links" members = None -> e = KeyError "_links")
      /\ (forall links,
            assoc "_links" members = Some (JObj links) -> e = KeyError "results")).
    { destruct g as [c path params expand|c [url|] params|c [|? ?] [url|] params|];
        simpl in P; try discriminate; injection P as P; symmetry in P.
      - destruct (lacks_key_raises self (add_expand params expand) members K)
          as (e & T & E1 & E2).
        exists e. split; [|auto]. intros fuel. cbn [gen_next]. exact (step _ _ _ _ _ P T).
      - destruct (lacks_key_raises self params members K) as (e & T & E1 & E2).
        exists e. split; [|auto]. intros fuel. exact (step _ _ _ _ _ P T).
      - destruct (lacks_key_raises self params members K) as (e & T & E1 & E2).
        exists e. split; [|auto]. intros fuel. cbn [gen_next]. exact (step _ _ _ _ _ P T). }
    destruct first as (e & G & E1 & E2). exists e. split; [|auto].
    intros fuel. split; [exact (G fuel)|]. split; [|reflexivity].
    rewrite drain_unfold, (G fuel). reflexivity.
  - intros c path params expand w fuel n r l1 req members l2 H E K.
    apply consumed_Taken in H.
    destruct (lacks_key_raises self ∅ members K) as (e & T & _).
    destruct (Taken_fails self _ _ _ H l1 (req, inr (JObj members)) l2 e E T)
      as (L & S & G).
    eauto.
Qed.

(** C2.  Two pages, the first with a [next] link and the second without:
    draining a paged query yields the hydrated items of page 1 followed
    by those of page 2, in order, and sends exactly two GETs, the second
    one after the last item of page 1; a consumer that has pulled no more
    than the items of page 1 has caused only the first GET.  And in every
    drained iteration, each GET is followed at once by all the items of
    its page, before the next GET. *)
Theorem two_pages_in_order (self : Confluence) item_type path params expand :
  let g := _get_paged_results item_type path params expand in
  (forall w0 page1 links1 results1 next w1 page2 links2 results2 w2,
      let req1 := build_request self (_api_base self +:+ "/" +:+ path)
                    (add_expand params expand) in
      let req2 := build_request self (_base_url self +:+ py_str next) ∅ in
      http_get req1 w0 = (inr page1, w1) ->
      is_page page1 links1 results1 ->
      assoc "next" links1 = Some next ->
      http_get req2 w1 = (inr page2, w2) ->
      is_page page2 links2 results2 ->
      assoc "next" links2 = None ->
      exists fuel0,
        forall fuel, fuel0 <= fuel ->
          drain fuel self g w0
          = Some {| run_items := map (hydrate item_type) (results1 ++ results2);
                    run_status := Some Exhausted;
                    run_log := page_block item_type (req1, inr page1) results1
                               ++ page_block item_type (req2, inr page2) results2;
                    run_gen := GenDone;
                    run_world := w2 |}
          /\ (forall n, 0 < n <= length results1 ->
                take fuel n self g w0
                = Some {| run_items := map (hydrate item_type) (firstn n results1);
                          run_status := None;
                          run_log := page_block item_type (req1, inr page1)
                                       (firstn n results1);
                          run_gen := GenFor item_type (skipn n results1)
                                       (Some (_base_url self +:+ py_str next)) ∅;
                          run_world := w1 |}))
  /\ (forall fuel w r,
        drain fuel self g w = Some r ->
        run_log r = flat_map (block self item_type) (gets_of (run_log r))).
Proof.
  intros g. subst g. unfold _get_paged_results. split.
  - intros w0 page1 links1 results1 next w1 page2 links2 results2 w2. cbv zeta.
    intros H1 P1 N1 H2 P2 N2.
    pose proof (served_next self _ _ _ _ _ _ _ _ _ _ H1 P1 N1
                  (served_last self _ _ _ _ _ _ _ H2 P2 N2)) as S.
    destruct (drains_created self item_type path params expand w0 _
                (drains_served self item_type _ _ _ _ _ S)) as [fuel0 D].
    exists (fuel0 + 3). intros fuel Hle. split.
    + rewrite (drain_mono self fuel0 fuel _ _ _ D) by lia.
      unfold full_run. simpl. rewrite map_app, !app_nil_r. reflexivity.
    + intros n Hn. destruct fuel as [|[|[|fuel]]]; try lia.
      destruct n as [|n]; [lia|].
      destruct results1 as [|result results1]; simpl in Hn; [lia|].
      rewrite take_unfold. cbn [gen_next].
      rewrite (fetch_intro self _ _ _ _ _ H1). cbn [bind].
      rewrite (turn_page_next self _ _ _ _ _ P1 N1).
      rewrite take_pending by lia. reflexivity.
  - intros fuel w r D. apply drain_Drained in D.
    exact (Drained_blocks self _ _ _ D item_type eq_refl).
Qed.

(** ** Parameter assembly *)

Lemma lookup_set_if_truthy_ne k k' v (params : gmap string string) :
  k <> k' -> set_if_truthy k v params !! k' = params !! k'.
Proof.
  intros Hk. unfold set_if_truthy. destruct v as [s|]; [|reflexivity].
  destruct (truthy_str (Some s)); [|reflexivity]. apply lookup_insert_ne. exact Hk.
Qed.

Lemma lookup_add_expand_ne k (params : gmap string string) expand :
  k <> "expand" -> add_expand params expand !! k = params !! k.
Proof.
  intros Hk. unfold add_expand. destruct expand as [[|x xs]|]; try reflexivity.
  apply lookup_insert_ne. congruence.
Qed.

Lemma content_params_posting_day content_type space_key title status posting_day :
  content_params content_type space_key title status posting_day !! "postingDay"
  = match posting_day with
    | Some d => if String.eqb content_type "blogpost" then Some (strftime_Ymd d) else None
    | None => None
    end.
Proof.
  unfold content_params.
  assert (base : forall cond : bool,
    set_if_truthy "status" status
      (set_if_truthy "title" title
         (set_if_truthy "spaceKey" space_key
            (if cond then <["type" := content_type]> (∅ : gmap string string) else ∅)))
    !! "postingDay" = None).
  { intros cond. rewrite !lookup_set_if_truthy_ne by discriminate.
    destruct cond; [rewrite lookup_insert_ne by discriminate|]; apply lookup_empty. }
  destruct posting_day as [d|]; [|apply base].
  destruct (String.eqb content_type "blogpost"); [|apply base].
  apply lookup_insert_eq.
Qed.

Lemma user_lookup_username name user_key :
  supplied (Some name) -> ~ supplied user_key ->
  user_lookup_params (Some name) user_key = {["username" := name]}.
Proof.
  unfold supplied, user_lookup_params, set_if_truthy. intros -> K.
  destruct user_key as [key|]; [|apply insert_empty].
  destruct (truthy_str (Some key)); [destruct K; reflexivity|apply insert_empty].
Qed.

Lemma user_lookup_key username key :
  ~ supplied username -> supplied (Some key) ->
  user_lookup_params username (Some key) = {["key" := key]}.
Proof.
  unfold supplied, user_lookup_params. intros U K.
  assert (E : set_if_truthy "username" username (∅ : gmap string string) = ∅).
  { unfold set_if_truthy. destruct username as [name|]; [|reflexivity].
    destruct (truthy_str (Some name)); [destruct U; reflexivity|reflexivity]. }
  rewrite E. unfold set_if_truthy. rewrite K. apply insert_empty.
Qed.

Lemma rejected_iff username user_key :
  lookup_key_rejected username user_key = true
  <-> (supplied username /\ supplied user_key)
      \/ (~ supplied username /\ ~ supplied user_key).
Proof.
  unfold lookup_key_rejected, supplied.
  destruct (truthy_str username), (truthy_str user_key); simpl; split; intros H;
    try reflexivity; try discriminate; auto;
    destruct H as [[H1 H2]|[H1 H2]]; try discriminate; try (destruct H1; reflexivity);
    try (destruct H2; reflexivity).
Qed.

Lemma single_result_request (self : Confluence) item_type path params expand w :
  exists resp,
    (_get_single_result self item_type path params expand w).2
    = [(build_request self (_api_base self +:+ "/" +:+ path) (add_expand params expand), resp)].
Proof.
  unfold _get_single_result, fetch.
  destruct (http_get _ w) as [resp w']. exists resp. reflexivity.
Qed.

(** C3.  [get_user] and [get_user_groups] take exactly one of [username]
    and [user_key].  With both or with neither the call raises
    [ValueError] on the spot: [get_user] has sent nothing and left the
    world as it was, [get_user_groups] has not even built a generator.
    With exactly one, the call goes through and that one is the only
    lookup parameter: it is what the single request of [get_user]
    carries and what the first request of the group iteration
    carries (besides [expand]). *)
Theorem user_lookup_needs_exactly_one (self : Confluence) username user_key expand w :
  let rejection := ValueError "Exactly one of username or user_key must be set" in
  let accepted lookup :=
    get_user self username user_key expand w
      = _get_single_result self User "user" lookup expand w
    /\ (exists resp,
          (get_user self username user_key expand w).2
          = [(build_request self (_api_base self +:+ "/" +:+ "user")
                (add_expand lookup expand), resp)])
    /\ get_user_groups username user_key expand
      = inr (_get_paged_results Group "user/memberof" lookup expand)
    /\ (forall fuel n w0 r first rest,
          consumed fuel n self (_get_paged_results Group "user/memberof" lookup expand) w0 r ->
          requests_of (run_log r) = first :: rest ->
          req_params first = add_expand lookup expand) in
  ((supplied username /\ supplied user_key) \/ (~ supplied username /\ ~ supplied user_key) ->
     get_user self username user_key expand w = (inl rejection, w, [])
     /\ get_user_groups username user_key expand = inl rejection)
  /\ (supplied username -> ~ supplied user_key ->
      exists name, username = Some name /\ accepted {["username" := name]})
  /\ (~ supplied username -> supplied user_key ->
      exists key, user_key = Some key /\ accepted {["key" := key]}).
Proof.
  cbv zeta.
  assert (first_params : forall lookup fuel n w0 r first rest,
    consumed fuel n self (_get_paged_results Group "user/memberof" lookup expand) w0 r ->
    requests_of (run_log r) = first :: rest ->
    req_params first = add_expand lookup expand).
  { intros lookup fuel n w0 r first rest H E. apply consumed_Taken in H.
    destruct (Taken_first self _ _ _ _ _ _ H _ _ E) as [-> _]. apply req_params_build. }
  split; [|split].
  - intros H. apply rejected_iff in H. unfold get_user, get_user_groups.
    rewrite H. split; reflexivity.
  - intros U K. destruct username as [name|]; [|discriminate U]. exists name.
    split; [reflexivity|].
    assert (R : lookup_key_rejected (Some name) user_key = false).
    { destruct (lookup_key_rejected (Some name) user_key) eqn:R; [|reflexivity].
      apply rejected_iff in R as [[_ R]|[R _]]; contradiction. }
    unfold get_user, get_user_groups. rewrite R, (user_lookup_username _ _ U K).
    split; [reflexivity|]. split; [apply single_result_request|].
    split; [reflexivity|apply first_params].
  - intros U K. destruct user_key as [key|]; [|discriminate K]. exists key.
    split; [reflexivity|].
    assert (R : lookup_key_rejected username (Some key) = false).
    { destruct (lookup_key_rejected username (Some key)) eqn:R; [|reflexivity].
      apply rejected_iff in R as [[R _]|[_ R]]; contradiction. }
    unfold get_user, get_user_groups. rewrite R, (user_lookup_key _ _ U K).
    split; [reflexivity|]. split; [apply single_result_request|].
    split; [reflexivity|apply first_params].
Qed.

(** C4.  [date(2024, 3, 5)] is sent as ["2024-03-05"].  The request that
    [get_content] builds carries [postingDay] exactly when a posting day
    is given and the content type is ["blogpost"], and then as that day in
    the form YYYY-MM-DD; with ["page"] it never does; and the requests
    that follow the first carry no [postingDay] parameter either. *)
Theorem posting_day_only_for_blogposts (self : Confluence) content_type space_key title
    status posting_day expand :
  strftime_Ymd (mkDate 2024 3 5) = "2024-03-05"
  /\ (forall v,
        content_params content_type space_key title status posting_day !! "postingDay" = Some v
        <-> exists d, posting_day = Some d /\ content_type = "blogpost" /\ v = strftime_Ymd d)
  /\ (forall w fuel n r first rest,
        consumed fuel n self
          (get_content content_type space_key title status posting_day expand) w r ->
        requests_of (run_log r) = first :: rest ->
        req_url first = _api_base self +:+ "/" +:+ "content"
        /\ (forall v,
              req_params first !! "postingDay" = Some v
              <-> exists d,
                    posting_day = Some d /\ content_type = "blogpost" /\ v = strftime_Ymd d)
        /\ (content_type = "page" -> req_params first !! "postingDay" = None)
        /\ Forall (fun rq => req_params rq !! "postingDay" = None) rest).
Proof.
  assert (iff : forall v,
    content_params content_type space_key title status posting_day !! "postingDay" = Some v
    <-> exists d, posting_day = Some d /\ content_type = "blogpost" /\ v = strftime_Ymd d).
  { intros v. rewrite content_params_posting_day. split.
    - destruct posting_day as [d|]; [|discriminate].
      destruct (String.eqb content_type "blogpost") eqn:B; [|discriminate].
      apply String.eqb_eq in B. intros [= <-]. eauto.
    - intros (d & -> & -> & ->). reflexivity. }
  split; [reflexivity|]. split; [exact iff|].
  intros w fuel n r first rest H E. apply consumed_Taken in H.
  destruct (Taken_first self _ _ _ _ _ _ H _ _ E) as [-> F].
  rewrite req_url_build, req_params_build, lookup_add_expand_ne by discriminate.
  split; [reflexivity|]. split; [exact iff|]. split.
  - intros ->. rewrite content_params_posting_day.
    destruct posting_day; reflexivity.
  - eapply Forall_impl; [exact F|]. intros rq ->. apply lookup_empty.
Qed.

(** C10.  [__enter__] installs a session that carries the credentials and
    hands back [None], not the client: in [with client as name], [name]
    is [None] and the operations are those of the entered client, whose
    requests go through the session.  [__exit__] closes the session when
    there is one and does nothing otherwise. *)
Theorem enter_returns_none (self : Confluence) :
  snd (__enter__ self) = PyNone
  /\ fst (__enter__ self)
     = {| _base_url := _base_url self;
          _basic_auth := _basic_auth self;
          _api_base := _api_base self;
          _client := Some {| sess_auth := Some (_basic_auth self); sess_closed := false |} |}
  /\ (forall R (body : pyobj -> Confluence -> R),
        with_as self body
        = (body PyNone (fst (__enter__ self)), __exit__ (fst (__enter__ self))))
  /\ (forall url params,
        build_request (fst (__enter__ self)) url params
        = {| req_url := url; req_params := params;
             req_auth := Some (_basic_auth self); req_channel := ViaSession |})
  /\ _client (__exit__ (fst (__enter__ self)))
     = Some {| sess_auth := Some (_basic_auth self); sess_closed := true |}
  /\ (forall s, _client self = Some s ->
        _client (__exit__ self) = Some {| sess_auth := sess_auth s; sess_closed := true |})
  /\ (_client self = None -> __exit__ self = self).
Proof.
  repeat split.
  - intros s H. unfold __exit__. rewrite H. reflexivity.
  - intros H. unfold __exit__. rewrite H. reflexivity.
Qed.

(** ** The two channels *)

Lemma turn_page_same (c1 c2 : Confluence) params body :
  _base_url c1 = _base_url c2 -> turn_page c1 params body = turn_page c2 params body.
Proof. intros E. unfold turn_page. rewrite E. reflexivity. Qed.

Lemma wire_events_gets (xs : list exchange) :
  map wire_event (map EvGet xs) = map inl (map wire_exchange xs).
Proof. rewrite !map_map. reflexivity. Qed.

Lemma wire_run_after_yield xs1 xs2 item (r1 r2 : run) :
  map wire_exchange xs1 = map wire_exchange xs2 ->
  wire_run r1 = wire_run r2 ->
  wire_run (after_yield xs1 item r1) = wire_run (after_yield xs2 item r2).
Proof.
  unfold wire_run, after_yield. simpl. intros X [= I S L G W].
  rewrite !map_app, !wire_events_gets, X, I, S, G, W. simpl. rewrite L. reflexivity.
Qed.

Lemma wire_run_ended xs1 xs2 res g (w : World) :
  map wire_exchange xs1 = map wire_exchange xs2 ->
  wire_run (ended xs1 res g w) = wire_run (ended xs2 res g w).
Proof.
  unfold wire_run, ended. simpl. intros X. rewrite !wire_events_gets, X. reflexivity.
Qed.

Section Channels.

Hypothesis blind : channel_blind.
Variables c1 c2 : Confluence.
Hypothesis same : same_wire c1 c2.

Lemma fetch_sim url params w :
  (fetch c1 url params w).1 = (fetch c2 url params w).1
  /\ wire_exchange (fetch c1 url params w).2 = wire_exchange (fetch c2 url params w).2.
Proof.
  destruct same as (_ & _ & B). unfold fetch.
  rewrite (blind (build_request c1 url params) (build_request c2 url params) w (B _ _)).
  destruct (http_get (build_request c2 url params) w) as [resp w']. simpl.
  split; [reflexivity|]. unfold wire_exchange. simpl. rewrite B. reflexivity.
Qed.

Lemma single_sim item_type path params expand w :
  (_get_single_result c1 item_type path params expand w).1
  = (_get_single_result c2 item_type path params expand w).1
  /\ map wire_exchange (_get_single_result c1 item_type path params expand w).2
     = map wire_exchange (_get_single_result c2 item_type path params expand w).2.
Proof.
  unfold _get_single_result. destruct same as (_ & A & _). rewrite A.
  pose proof (fetch_sim (_api_base c2 +:+ "/" +:+ path) (add_expand params expand) w)
    as [F X].
  destruct (fetch c1 _ _ w) as [[resp1 w1] x1], (fetch c2 _ _ w) as [[resp2 w2] x2].
  simpl in F, X. injection F as -> ->. simpl. rewrite X. auto.
Qed.

Lemma gen_next_sim (fuel : nat) :
  forall g w,
    option_map wire_next (gen_next fuel c1 g w) = option_map wire_next (gen_next fuel c2 g w).
Proof.
  induction fuel as [|fuel IH]; intros g w; [reflexivity|].
  destruct same as (B & A & _).
  destruct g as [cls path params expand | cls [url|] params
                | cls [|result pending] url params | ]; cbn [gen_next];
    try reflexivity; try apply IH.
  - rewrite A. apply IH.
  - pose proof (fetch_sim url params w) as [F X].
    destruct (fetch c1 url params w) as [[resp1 w1] x1],
             (fetch c2 url params w) as [[resp2 w2] x2].
    simpl in F, X. injection F as -> ->.
    assert (T : (do search_results <- resp2; turn_page c1 params search_results)
                = (do search_results <- resp2; turn_page c2 params search_results)).
    { destruct resp2; simpl; [reflexivity|apply turn_page_same, B]. }
    rewrite T.
    destruct (do search_results <- resp2; turn_page c2 params search_results)
      as [e|[[url' params'] pending]].
    + simpl. unfold wire_next. simpl. rewrite X. reflexivity.
    + specialize (IH (GenFor cls pending url' params') w2).
      destruct (gen_next fuel c1 _ w2) as [[[[r1 g1] w1'] xs1]|],
               (gen_next fuel c2 _ w2) as [[[[r2 g2] w2'] xs2]|];
        simpl in IH |- *; try discriminate; [|reflexivity].
      unfold wire_next in IH |- *. simpl in IH |- *.
      injection IH as -> -> -> E. rewrite X, E. reflexivity.
Qed.

Lemma take_sim (fuel n : nat) :
  forall g w,
    option_map wire_run (take fuel n c1 g w) = option_map wire_run (take fuel n c2 g w).
Proof.
  induction n as [|n IH]; intros g w; [reflexivity|].
  rewrite !take_unfold. pose proof (gen_next_sim fuel g w) as G.
  destruct (gen_next fuel c1 g w) as [[[[r1 g1] w1] xs1]|],
           (gen_next fuel c2 g w) as [[[[r2 g2] w2] xs2]|];
    simpl in G; try discriminate; [|reflexivity].
  unfold wire_next in G. simpl in G. injection G as -> -> -> X.
  destruct r2.
  - specialize (IH g2 w2).
    destruct (take fuel n c1 g2 w2) as [ra|], (take fuel n c2 g2 w2) as [rb|];
      simpl in IH |- *; try discriminate; [|reflexivity].
    assert (E : wire_run ra = wire_run rb) by congruence.
    f_equal. apply wire_run_after_yield; assumption.
  - simpl. f_equal. apply wire_run_ended, X.
  - simpl. f_equal. apply wire_run_ended, X.
Qed.

Lemma drain_sim (fuel : nat) :
  forall g w,
    option_map wire_run (drain fuel c1 g w) = option_map wire_run (drain fuel c2 g w).
Proof.
  induction fuel as [|fuel IH]; intros g w; [reflexivity|].
  rewrite !drain_unfold. pose proof (gen_next_sim fuel g w) as G.
  destruct (gen_next fuel c1 g w) as [[[[r1 g1] w1] xs1]|],
           (gen_next fuel c2 g w) as [[[[r2 g2] w2] xs2]|];
    simpl in G; try discriminate; [|reflexivity].
  unfold wire_next in G. simpl in G. injection G as -> -> -> X.
  destruct r2.
  - specialize (IH g2 w2).
    destruct (drain fuel c1 g2 w2) as [ra|], (drain fuel c2 g2 w2) as [rb|];
      simpl in IH |- *; try discriminate; [|reflexivity].
    assert (E : wire_run ra = wire_run rb) by congruence.
    f_equal. apply wire_run_after_yield; assumption.
  - simpl. f_equal. apply wire_run_ended, X.
  - simpl. f_equal. apply wire_run_ended, X.
Qed.

Lemma observe_sim fuel n op w : observe fuel n c1 op w = observe fuel n c2 op w.
Proof.
  assert (one : forall item_type path params expand,
    ObsSingle (_get_single_result c1 item_type path params expand w).1.1
      (_get_single_result c1 item_type path params expand w).1.2
      (map wire_exchange (_get_single_result c1 item_type path params expand w).2)
    = ObsSingle (_get_single_result c2 item_type path params expand w).1.1
      (_get_single_result c2 item_type path params expand w).1.2
      (map wire_exchange (_get_single_result c2 item_type path params expand w).2)).
  { intros c path params expand.
    destruct (single_sim c path params expand w) as [E X]. rewrite E, X. reflexivity. }
  assert (many : forall g,
    ObsSequence g (option_map wire_run (take fuel n c1 g w))
      (option_map wire_run (drain fuel c1 g w))
    = ObsSequence g (option_map wire_run (take fuel n c2 g w))
      (option_map wire_run (drain fuel c2 g w))).
  { intros g. rewrite take_sim, drain_sim. reflexivity. }
  destruct op; unfold observe, call, single; cbn [ret]; try apply many; try apply one.
  - unfold get_user. destruct (lookup_key_rejected username user_key); [reflexivity|apply one].
  - destruct (get_user_groups username user_key expand) as [e|g]; [reflexivity|apply many].
Qed.

End Channels.

(** C8.  Scoped and non-scoped use agree.  For a client that holds no
    session, take the same client after [__enter__].  Both put the same
    URL, parameters and credentials on the wire for every request; and
    when the transport answers by what is on the wire, every operation
    observes the same in both modes: the same single result, the same
    rejection, or the same generator with the same items, ending, world
    and sequence of requests and items, pulled in part or drained. *)
Theorem scoped_and_unscoped_agree (self : Confluence) :
  _client self = None ->
  (forall url params,
      wire (build_request (fst (__enter__ self)) url params)
      = (url, params, Some (_basic_auth self))
      /\ wire (build_request self url params) = (url, params, Some (_basic_auth self)))
  /\ (channel_blind ->
      forall op w fuel n,
        observe fuel n (fst (__enter__ self)) op w = observe fuel n self op w).
Proof.
  intros H.
  assert (W : forall url params,
    wire (build_request (fst (__enter__ self)) url params)
    = (url, params, Some (_basic_auth self))
    /\ wire (build_request self url params) = (url, params, Some (_basic_auth self))).
  { intros url params. unfold build_request. rewrite H. split; reflexivity. }
  split; [exact W|].
  intros blind op w fuel n. apply observe_sim; [exact blind|].
  split; [reflexivity|]. split; [reflexivity|].
  intros url params. destruct (W url params) as [-> ->]. reflexivity.
Qed.

(** ** Further properties of the client and of the engine *)

Lemma append_assoc (s1 s2 s3 : string) : (s1 +:+ s2) +:+ s3 = s1 +:+ (s2 +:+ s3).
Proof.
  induction s1 as [|a s1 IH]; [reflexivity|].
  change (String a ((s1 +:+ s2) +:+ s3) = String a (s1 +:+ (s2 +:+ s3))).
  rewrite IH. reflexivity.
Qed.

Lemma in_use_inv (c : Confluence) :
  in_use c ->
  _api_base c = _base_url c +:+ "/rest/api"
  /\ (forall s, _client c = Some s -> sess_auth s = Some (_basic_auth c)).
Proof.
  induction 1 as [base_url basic_auth|c _ [A S]|c _ [A S]].
  - split; [reflexivity|discriminate].
  - split; [exact A|]. simpl. intros s [= <-]. reflexivity.
  - unfold __exit__. destruct (_client c) as [s0|] eqn:E; [|split; [exact A|]].
    + split; [exact A|]. simpl. intros s [= <-]. simpl. exact (S s0 eq_refl).
    + rewrite E. discriminate.
Qed.

Lemma build_request_self (self : Confluence) url params :
  build_request self (req_url (build_request self url params))
    (req_params (build_request self url params))
  = build_request self url params.
Proof. rewrite req_url_build, req_params_build. reflexivity. Qed.

Lemma Next_built (self : Confluence) g w res :
  Next self g w res ->
  Forall (fun rq => rq = build_request self (req_url rq) (req_params rq)) (map fst res.2).
Proof.
  induction 1 as [ w | cls path params expand w res _ IH | cls params w
                 | cls url params w resp w' x e F T
                 | cls url params w resp w' x url' params' pending r g' w'' xs F T _ IH
                 | cls url params w res _ IH
                 | cls result pending url params w ]; simpl; try constructor; auto.
  - apply fetch_inv in F as [-> _]. simpl. symmetry. apply build_request_self.
  - apply fetch_inv in F as [-> _]. simpl. symmetry. apply build_request_self.
Qed.

Lemma Taken_built (self : Confluence) g w r :
  Taken self g w r ->
  Forall (fun rq => rq = build_request self (req_url rq) (req_params rq))
    (requests_of (run_log r)).
Proof.
  unfold requests_of.
  induction 1 as [g w|g w res g' w' xs N _|g w item g' w' xs r N _ IH].
  - constructor.
  - rewrite gets_of_ended. apply (Next_built self _ _ _ N).
  - rewrite gets_of_after_yield, map_app. apply Forall_app.
    split; [apply (Next_built self _ _ _ N)|exact IH].
Qed.

Lemma linked_urls (self : Confluence) (Q : string -> Prop) :
  (forall resp u, follow_up self resp = Some u -> Q u) ->
  forall xs pending,
    linked self pending xs ->
    (forall u, pending = Some u -> Q u) ->
    Forall (fun rq => Q (req_url rq)) (map fst xs).
Proof.
  intros F. induction xs as [|[req resp] xs IH]; intros pending L P; [constructor|].
  destruct L as [E L]. simpl. constructor; [apply P, E|].
  apply (IH _ L). intros u. apply F.
Qed.

Lemma follow_up_under_base (self : Confluence) resp u :
  follow_up self resp = Some u -> exists suffix, u = _base_url self +:+ suffix.
Proof.
  unfold follow_up. destruct resp as [e|[| | | | |members]]; try discriminate.
  destruct (assoc "_links" members) as [[| | | | |links]|]; try discriminate.
  destruct (assoc "next" links) as [next|]; [|discriminate].
  intros [= <-]. eauto.
Qed.

Lemma sent_by_built (self : Confluence) url params suffix :
  in_use self ->
  url = _base_url self +:+ suffix ->
  sent_by self (build_request self url params).
Proof.
  intros U ->. destruct (in_use_inv self U) as [_ S].
  unfold sent_by, build_request, channel_of.
  destruct (_client self) as [s|] eqn:E; simpl.
  - rewrite (S s eq_refl). eauto.
  - eauto.
Qed.

Lemma api_under_base (self : Confluence) path :
  in_use self ->
  _api_base self +:+ "/" +:+ path = _base_url self +:+ ("/rest/api" +:+ "/" +:+ path).
Proof.
  intros U. destruct (in_use_inv self U) as [-> _]. apply append_assoc.
Qed.

Ltac absent :=
  repeat first
    [ rewrite lookup_set_if_truthy_ne by discriminate
    | rewrite lookup_insert_ne by discriminate
    | rewrite lookup_singleton_ne by discriminate
    | rewrite lookup_empty
    | reflexivity
    | match goal with
      | |- context [match ?x with _ => _ end] => destruct x
      end ].

Lemma content_params_absent content_type space_key title status posting_day k :
  k <> "type" -> k <> "spaceKey" -> k <> "title" -> k <> "status" -> k <> "postingDay" ->
  content_params content_type space_key title status posting_day !! k = None.
Proof.
  intros H1 H2 H3 H4 H5. unfold content_params.
  assert (base : forall cond : bool,
    set_if_truthy "status" status
      (set_if_truthy "title" title
         (set_if_truthy "spaceKey" space_key
            (if cond then <["type" := content_type]> (∅ : gmap string string) else ∅)))
    !! k = None).
  { intros cond. rewrite !lookup_set_if_truthy_ne by congruence.
    destruct cond; [rewrite lookup_insert_ne by congruence|]; apply lookup_empty. }
  destruct posting_day as [d|]; [|apply base].
  destruct (String.eqb content_type "blogpost"); [|apply base].
  rewrite lookup_insert_ne by congruence. apply base.
Qed.

(** What an operation that returns a generator returns. *)
Lemma call_created (self : Confluence) op w g :
  call self op w = Sequence (inr g) ->
  exists item_type path params,
    g = GenCreated item_type path params (op_expand op)
    /\ params !! "expand" = None.
Proof.
  destruct op; unfold call, single; cbn [ret]; try discriminate; intros E;
    injection E as E; try (subst g; eexists _, _, _; split; [reflexivity|]).
  - apply content_params_absent; discriminate.
  - unfold set_if_truthy. absent.
  - unfold set_if_truthy. absent.
  - absent.
  - absent.
  - revert E. unfold get_user_groups. destruct (lookup_key_rejected username user_key);
      [discriminate|]. intros [= <-]. eexists _, _, _. split; [reflexivity|].
    unfold user_lookup_params, set_if_truthy. absent.
  - absent.
  - absent.
  - absent.
  - absent.
Qed.

(** What an operation that fetches a single result has sent. *)
Lemma call_single (self : Confluence) op w result w' xs :
  call self op w = Single result w' xs ->
  xs = []
  \/ exists path params resp,
       xs = [(build_request self (_api_base self +:+ "/" +:+ path)
                (add_expand params (op_expand op)), resp)]
       /\ params !! "expand" = None.
Proof.
  assert (one : forall item_type path params expand,
    params !! "expand" = None ->
    exists path0 params0 resp,
      (_get_single_result self item_type path params expand w).2
      = [(build_request self (_api_base self +:+ "/" +:+ path0)
            (add_expand params0 expand), resp)]
      /\ params0 !! "expand" = None).
  { intros c path params expand A.
    destruct (single_result_request self c path params expand w) as [resp E].
    eauto. }
  destruct op; unfold call, single; cbn [ret]; try discriminate; intros [= _ _ <-].
  - right. apply one, lookup_empty.
  - unfold get_user. destruct (lookup_key_rejected username user_key); [left; reflexivity|].
    right. apply one. unfold user_lookup_params, set_if_truthy. absent.
  - right. apply (one User "user/anonymous" ∅ None), lookup_empty.
  - right. apply (one User "user/current" ∅ None), lookup_empty.
  - right. apply one, lookup_empty.
Qed.

(** X1.  Every request that an operation lets out is built by the client
    in use: it carries the client's credentials, goes through the channel
    that the client has at that moment, and addresses a URL under its base
    URL, whatever next links the server hands out. *)
Theorem requests_built_by_client (self : Confluence) op w rqs :
  in_use self ->
  requests_seen self op w rqs ->
  Forall (sent_by self) rqs.
Proof.
  intros U. unfold requests_seen.
  destruct (call self op w) as [result w' xs|[e|g]] eqn:C.
  - intros ->. destruct (call_single self _ _ _ _ _ C)
      as [->|(path & params & resp & -> & _)]; [constructor|].
    constructor; [|constructor]. simpl.
    exact (sent_by_built self _ _ _ U (api_under_base self path U)).
  - intros ->. constructor.
  - intros (fuel & n & w0 & r & H & ->).
    destruct (call_created self _ _ _ C) as (c & path & params & -> & _).
    apply consumed_Taken in H.
    pose proof (Taken_built self _ _ _ H) as B.
    pose proof (linked_urls self (fun u => exists suffix, u = _base_url self +:+ suffix)
                  (follow_up_under_base self) _ _ (Taken_linked self _ _ _ H)) as L.
    simpl heading in L. fold (requests_of (run_log r)) in L.
    assert (L' : Forall (fun rq => exists suffix, req_url rq = _base_url self +:+ suffix)
                   (requests_of (run_log r))).
    { apply L. intros u [= <-]. eexists. exact (api_under_base self path U). }
    clear L. induction B as [|rq rqs B _ IH]; [constructor|].
    inversion L' as [|? ? [suffix Q] L'']; subst.
    constructor; [|exact (IH L'')].
    rewrite B. exact (sent_by_built self _ _ _ U Q).
Qed.

(** X2.  Entering and leaving change nothing but the session: base URL,
    credentials, API root and [str(client)] stay as they are.  Leaving
    twice is leaving once; leaving never removes a session, so a client
    that was entered keeps sending through its (closed) session after the
    block; and a client in use prints as its base URL followed by
    [/rest/api]. *)
Theorem lifecycle_keeps_identity (self : Confluence) :
  (forall c', c' = fst (__enter__ self) \/ c' = __exit__ self ->
     _base_url c' = _base_url self /\ _basic_auth c' = _basic_auth self
     /\ _api_base c' = _api_base self /\ __str__ c' = __str__ self)
  /\ __exit__ (__exit__ self) = __exit__ self
  /\ (_client (__exit__ self) = None <-> _client self = None)
  /\ (forall url params,
        req_channel (build_request (__exit__ (fst (__enter__ self))) url params) = ViaSession)
  /\ (in_use self -> __str__ self = _base_url self +:+ "/rest/api").
Proof.
  split; [|split; [|split; [|split]]].
  - intros c' [->| ->]; [repeat split|].
    unfold __exit__. destruct (_client self); repeat split.
  - unfold __exit__. destruct (_client self) as [s|] eqn:E; simpl; [reflexivity|].
    rewrite E. reflexivity.
  - unfold __exit__. destruct (_client self) as [s|] eqn:E; simpl.
    + split; discriminate.
    + rewrite E. split; reflexivity.
  - reflexivity.
  - intros U. exact (proj1 (in_use_inv self U)).
Qed.





Lemma Next_done_after (self : Confluence) g w res :
  Next self g w res ->
  (forall item, res.1.1.1 <> Yielded item) ->
  res.1.1.2 = GenDone.
Proof.
  induction 1; simpl; intros Y; auto. destruct (Y _ eq_refl).
Qed.

(** X6.  A result cannot be iterated twice.  Once the iteration has
    ended, normally or with an exception, the generator is finished: a
    further [next], [take] or [drain] stops at once with nothing, sends
    no request and leaves the world alone; after a failure it does not
    raise again. *)
Theorem finished_stays_finished (self : Confluence) fuel n g w r :
  consumed fuel n self g w r ->
  run_status r <> None ->
  run_gen r = GenDone
  /\ forall fuel' n' w',
      gen_next (S fuel') self (run_gen r) w' = Some (StopIteration, GenDone, w', [])
      /\ take (S fuel') (S n') self (run_gen r) w' = Some (ended [] StopIteration GenDone w')
      /\ drain (S (S fuel')) self (run_gen r) w' = Some (ended [] StopIteration GenDone w').
Proof.
  intros H S. apply consumed_Taken in H.
  assert (D : run_gen r = GenDone).
  { induction H as [g w|g w res g' w' xs N Y|g w item g' w' xs r N _ IH].
    - destruct S. reflexivity.
    - exact (Next_done_after self _ _ _ N Y).
    - exact (IH S). }
  split; [exact D|]. rewrite D. intros fuel' n' w'. repeat split.
Qed.

(** X7.  A transport failure comes out as it is.  The [next] that runs
    into it raises the very exception of the transport, after that one
    request, and finishes the generator; the single fetch returns it
    without constructing anything; and in whatever a consumer has
    observed, nothing follows a failed GET. *)
Theorem transport_failure_surfaces (self : Confluence) :
  (forall g w req e w',
      pending_request self g = Some req ->
      http_get req w = (inl e, w') ->
      forall fuel,
        gen_next (S (S fuel)) self g w = Some (Raised e, GenDone, w', [(req, inl e)])
        /\ drain (S (S (S fuel))) self g w
           = Some (ended [(req, inl e)] (Raised e) GenDone w'))
  /\ (forall item_type path params expand w e w',
        http_get (build_request self (_api_base self +:+ "/" +:+ path)
                    (add_expand params expand)) w = (inl e, w') ->
        _get_single_result self item_type path params expand w
        = (inl e, w',
           [(build_request self (_api_base self +:+ "/" +:+ path)
               (add_expand params expand), inl e)]))
  /\ (forall fuel n g w r l1 req e l2,
        consumed fuel n self g w r ->
        run_log r = l1 ++ EvGet (req, inl e) :: l2 ->
        l2 = [] /\ run_status r = Some (Failed e) /\ run_gen r = GenDone).
Proof.
  split; [|split].
  - intros g w req e w' P H fuel.
    assert (G : gen_next (S (S fuel)) self g w
                = Some (Raised e, GenDone, w', [(req, inl e)])).
    { destruct g as [c path params expand|c [url|] params|c [|? ?] [url|] params|];
        simpl in P; try discriminate; injection P as <-; cbn [gen_next];
        rewrite (fetch_intro self _ _ _ _ _ H); reflexivity. }
    split; [exact G|]. rewrite drain_unfold, G. reflexivity.
  - intros c path params expand w e w' H. unfold _get_single_result.
    rewrite (fetch_intro self _ _ _ _ _ H). reflexivity.
  - intros fuel n g w r l1 req e l2 H E. apply consumed_Taken in H.
    exact (Taken_fails self _ _ _ H l1 (req, inl e) l2 e E eq_refl).
Qed.

Lemma items_of_app (l1 l2 : list event) : items_of (l1 ++ l2) = items_of l1 ++ items_of l2.
Proof. apply omap_app. Qed.

Lemma items_of_gets (xs : list exchange) : items_of (map EvGet xs) = [].
Proof. induction xs as [|x xs IH]; [reflexivity|exact IH]. Qed.

Lemma items_of_yields item_type results :
  items_of (yields item_type results) = map (hydrate item_type) results.
Proof.
  induction results as [|result results IH]; [reflexivity|]. simpl. f_equal. exact IH.
Qed.

Lemma Drained_items (self : Confluence) g w r :
  Drained self g w r -> run_items r = items_of (run_log r).
Proof.
  induction 1 as [g w res g' w' xs N Y|g w item g' w' xs r N _ IH]; simpl.
  - symmetry. apply items_of_gets.
  - rewrite items_of_app, items_of_gets. simpl. f_equal. exact IH.
Qed.

Lemma page_delivered (self : Confluence) body links results :
  is_page body links results -> delivered self (inr body) = results.
Proof.
  intros P. unfold delivered. simpl.
  destruct (assoc "next" links) as [next|] eqn:N.
  - rewrite (turn_page_next self ∅ body links results next P N). reflexivity.
  - rewrite (turn_page_last self ∅ body links results P N). reflexivity.
Qed.

(** X8.  What a drained query hands over is, in the order of the
    requests, what each response contributes, hydrated with the class of
    the query: for a well-formed page its [results], for a response on
    which the loop body raises nothing.  No item is dropped, repeated or
    reordered, and the items are those that the log shows as
    delivered. *)
Theorem drained_items_are_the_results (self : Confluence) item_type path params expand
    fuel w r :
  drain fuel self (_get_paged_results item_type path params expand) w = Some r ->
  run_items r
  = flat_map (fun x => map (hydrate item_type) (delivered self (snd x)))
      (gets_of (run_log r))
  /\ run_items r = items_of (run_log r)
  /\ (forall body links results,
        is_page body links results -> delivered self (inr body) = results).
Proof.
  intros D. apply drain_Drained in D.
  pose proof (Drained_items self _ _ _ D) as I.
  pose proof (Drained_blocks self _ _ _ D item_type eq_refl) as B. simpl in B.
  split; [|split; [exact I|apply page_delivered]].
  rewrite I. remember (gets_of (run_log r)) as xs eqn:X. rewrite B. clear.
  induction xs as [|x xs IH]; [reflexivity|].
  simpl. rewrite items_of_app, items_of_yields, IH. reflexivity.
Qed.

(** X9.  Nothing bounds the number of requests of one [next].  Against
    a server whose every page is empty and has a next link, a generator
    that is about to send a request never comes back: no amount of fuel
    lets [next], [take] or [drain] return. *)
Theorem endless_empty_pages_never_return (self : Confluence) :
  only_empty_pages ->
  forall fuel g w,
    pending_request self g <> None ->
    gen_next fuel self g w = None
    /\ drain fuel self g w = None
    /\ (forall n, take fuel (S n) self g w = None).
Proof.
  intros E.
  assert (loop : forall fuel c,
    (forall url params w, gen_next fuel self (GenLoop c (Some url) params) w = None)
    /\ (forall url params w, gen_next fuel self (GenFor c [] (Some url) params) w = None)).
  { induction fuel as [|fuel IH]; intros c; [split; reflexivity|].
    destruct (IH c) as [IL IF]. split; intros url params w; cbn [gen_next]; [|apply IL].
    destruct (E (build_request self url params) w) as (body & links & next & w' & H & P & N).
    rewrite (fetch_intro self _ _ _ _ _ H). cbn [bind].
    rewrite (turn_page_next self _ _ _ _ _ P N), IF. reflexivity. }
  assert (G : forall fuel g w, pending_request self g <> None ->
                               gen_next fuel self g w = None).
  { intros fuel g w P.
    destruct g as [c path params expand|c [url|] params|c [|? ?] [url|] params|];
      simpl in P; try (destruct P; reflexivity).
    - destruct fuel as [|fuel]; [reflexivity|]. cbn [gen_next]. apply loop.
    - apply loop.
    - apply loop. }
  intros fuel g w P. split; [exact (G fuel g w P)|]. split.
  - destruct fuel as [|fuel]; [reflexivity|]. rewrite drain_unfold, (G fuel g w P).
    reflexivity.
  - intros n. rewrite take_unfold, (G fuel g w P). reflexivity.
Qed.

Lemma lookup_add_expand (params : gmap string string) expand :
  params !! "expand" = None ->
  add_expand params expand !! "expand" = expand_param expand.
Proof.
  intros A. unfold add_expand, expand_param.
  destruct expand as [[|x xs]|]; try exact A. apply lookup_insert_eq.
Qed.

(** X10.  For every operation, the request it builds carries the
    [expand] parameter exactly when a non-empty list is given, as the
    names joined by commas ([None] and the empty list send none); the
    requests that follow next links carry none. *)
Theorem expand_is_comma_joined (self : Confluence) op w rqs first rest :
  requests_seen self op w rqs ->
  rqs = first :: rest ->
  req_params first !! "expand" = expand_param (op_expand op)
  /\ Forall (fun rq => req_params rq !! "expand" = None) rest.
Proof.
  unfold requests_seen.
  destruct (call self op w) as [result w' xs|[e|g]] eqn:C.
  - intros -> E.
    destruct (call_single self _ _ _ _ _ C) as [->|(path & params & resp & -> & A)];
      [discriminate|].
    injection E as <- <-. simpl. rewrite req_params_build.
    split; [exact (lookup_add_expand _ _ A)|constructor].
  - intros -> E. discriminate.
  - intros (fuel & n & w0 & r & H & ->) E.
    destruct (call_created self _ _ _ C) as (c & path & params & -> & A).
    apply consumed_Taken in H.
    destruct (Taken_first self _ _ _ _ _ _ H _ _ E) as [-> F].
    rewrite req_params_build. split; [exact (lookup_add_expand _ _ A)|].
    eapply Forall_impl; [exact F|]. intros rq ->. apply lookup_empty.
Qed.

Ltac lookups :=
  repeat first
    [ rewrite lookup_insert_eq
    | rewrite lookup_insert_ne by discriminate
    | rewrite lookup_singleton_eq
    | rewrite lookup_singleton_ne by discriminate
    | rewrite lookup_empty ].

Lemma set_if_truthy_fresh k v (params : gmap string string) :
  params !! k = None -> set_if_truthy k v params !! k = optional_param v.
Proof.
  intros A. unfold set_if_truthy, optional_param. destruct v as [s|]; [|exact A].
  destruct (truthy_str (Some s)); [apply lookup_insert_eq|exact A].
Qed.

Lemma known_content_type content_type :
  negb (String.eqb content_type "")
  && (String.eqb content_type "page" || String.eqb content_type "blogpost")
  = String.eqb content_type "page" || String.eqb content_type "blogpost".
Proof.
  destruct (String.eqb content_type "page") eqn:P;
    [apply String.eqb_eq in P; subst; reflexivity|].
  destruct (String.eqb content_type "blogpost") eqn:B;
    [apply String.eqb_eq in B; subst; reflexivity|].
  apply andb_false_r.
Qed.

(** X11.  The filters of the content query.  [type] is sent only for
    ["page"] and ["blogpost"]: any other content type is left out
    without an error, and the server's default applies.  [spaceKey],
    [title] and [status] are sent when given and not empty.  Nothing else
    is sent besides [postingDay] and [expand], and the request goes to
    [api_base/content]. *)
Theorem content_filters (self : Confluence) content_type space_key title status
    posting_day expand :
  let params := content_params content_type space_key title status posting_day in
  params !! "type"
  = (if String.eqb content_type "page" || String.eqb content_type "blogpost"
     then Some content_type else None)
  /\ params !! "spaceKey" = optional_param space_key
  /\ params !! "title" = optional_param title
  /\ params !! "status" = optional_param status
  /\ (forall k,
        k <> "type" -> k <> "spaceKey" -> k <> "title" -> k <> "status" ->
        k <> "postingDay" -> params !! k = None)
  /\ (forall w fuel n r first rest,
        consumed fuel n self
          (get_content content_type space_key title status posting_day expand) w r ->
        requests_of (run_log r) = first :: rest ->
        req_url first = _api_base self +:+ "/" +:+ "content"
        /\ forall k, k <> "expand" -> req_params first !! k = params !! k).
Proof.
  cbv zeta.
  assert (outer : forall k (inner : gmap string string),
    k <> "postingDay" ->
    match posting_day with
    | Some d =>
        if String.eqb content_type "blogpost"
        then <["postingDay" := strftime_Ymd d]> inner else inner
    | None => inner
    end !! k = inner !! k).
  { intros k inner K. destruct posting_day as [d|]; [|reflexivity].
    destruct (String.eqb content_type "blogpost"); [|reflexivity].
    apply lookup_insert_ne. congruence. }
  split; [|split; [|split; [|split; [|split]]]].
  - unfold content_params. rewrite outer by discriminate.
    rewrite !lookup_set_if_truthy_ne by discriminate. rewrite known_content_type.
    destruct (String.eqb content_type "page" || String.eqb content_type "blogpost");
      lookups; reflexivity.
  - unfold content_params. rewrite outer by discriminate.
    rewrite !lookup_set_if_truthy_ne by discriminate.
    apply set_if_truthy_fresh. absent.
  - unfold content_params. rewrite outer by discriminate.
    rewrite !lookup_set_if_truthy_ne by discriminate.
    apply set_if_truthy_fresh. absent.
  - unfold content_params. rewrite outer by discriminate.
    apply set_if_truthy_fresh. absent.
  - intros k. apply content_params_absent.
  - intros w fuel n r first rest H E. apply consumed_Taken in H.
    destruct (Taken_first self _ _ _ _ _ _ H _ _ E) as [-> _].
    rewrite req_url_build, req_params_build. split; [reflexivity|].
    intros k K. apply lookup_add_expand_ne, K.
Qed.

(** X12.  The filters of the spaces query, as the request carries them:
    [spaceKey] is the given keys joined by commas, and absent for an
    empty list; [type] and [status] are the values of the enumeration
    members; [label] is sent when not empty; [favourite] is sent only as
    ["True"]: [favourite=False] sends nothing, so it asks exactly what
    leaving the argument out asks. *)
Theorem spaces_filters (self : Confluence) space_keys space_type status label favourite
    expand :
  get_spaces space_keys space_type status label (Some false) expand
  = get_spaces space_keys space_type status label None expand
  /\ get_spaces (Some []) space_type status label favourite expand
     = get_spaces None space_type status label favourite expand
  /\ (forall w fuel n r first rest,
        consumed fuel n self
          (get_spaces space_keys space_type status label favourite expand) w r ->
        requests_of (run_log r) = first :: rest ->
        req_url first = _api_base self +:+ "/" +:+ "space"
        /\ req_params first !! "spaceKey"
           = match space_keys with
             | Some (k :: ks) => Some (join "," (k :: ks))
             | _ => None
             end
        /\ req_params first !! "type" = option_map value space_type
        /\ req_params first !! "status" = option_map value status
        /\ req_params first !! "label" = optional_param label
        /\ req_params first !! "favourite"
           = match favourite with
             | Some true => Some "True"
             | _ => None
             end).
Proof.
  split; [reflexivity|]. split; [reflexivity|].
  intros w fuel n r first rest H E. apply consumed_Taken in H.
  destruct (Taken_first self _ _ _ _ _ _ H _ _ E) as [-> _].
  rewrite req_url_build, req_params_build. split; [reflexivity|].
  rewrite !lookup_add_expand_ne by discriminate.
  unfold set_if_truthy, optional_param.
  destruct space_keys as [[|k ks]|], space_type as [ty|], status as [st|],
    label as [l|], favourite as [[|]|]; simpl;
    try destruct (String.eqb l ""); simpl; lookups; repeat split.
Qed.

(** X13.  The search query always sends [cql], as given, even when it is
    the empty string: the required argument is not checked.
    [cqlcontext] is sent when given and not empty, and the request goes
    to [api_base/content/search]. *)
Theorem search_parameters (self : Confluence) cql cql_context expand w fuel n r first rest :
  consumed fuel n self (search cql cql_context expand) w r ->
  requests_of (run_log r) = first :: rest ->
  req_url first = _api_base self +:+ "/" +:+ "content/search"
  /\ req_params first !! "cql" = Some cql
  /\ req_params first !! "cqlcontext" = optional_param cql_context
  /\ (forall k, k <> "cql" -> k <> "cqlcontext" -> k <> "expand" ->
        req_params first !! k = None).
Proof.
  intros H E. apply consumed_Taken in H.
  destruct (Taken_first self _ _ _ _ _ _ H _ _ E) as [-> _].
  rewrite req_url_build, req_params_build. split; [reflexivity|].
  split; [|split].
  - rewrite lookup_add_expand_ne, lookup_set_if_truthy_ne by discriminate.
    apply lookup_singleton_eq.
  - rewrite lookup_add_expand_ne by discriminate.
    apply set_if_truthy_fresh, lookup_singleton_ne. discriminate.
  - intros k K1 K2 K3.
    rewrite lookup_add_expand_ne, lookup_set_if_truthy_ne by congruence.
    apply lookup_singleton_ne. congruence.
Qed.

(** X14.  The content of a space is asked for at
    [api_base/space/{key}/content], or at [.../content/{type}] with the
    value of the content type, and the only filter is [depth=root], sent
    exactly when [just_root] is set. *)
Theorem space_content_parameters (self : Confluence) space_key content_type just_root expand :
  (forall w fuel n r first rest,
      consumed fuel n self (get_space_content space_key just_root expand) w r ->
      requests_of (run_log r) = first :: rest ->
      req_url first = _api_base self +:+ "/" +:+ "space/" +:+ space_key +:+ "/content"
      /\ req_params first !! "depth" = (if just_root then Some "root" else None)
      /\ (forall k, k <> "depth" -> k <> "expand" -> req_params first !! k = None))
  /\ (forall w fuel n r first rest,
        consumed fuel n self
          (get_space_content_with_type space_key content_type just_root expand) w r ->
        requests_of (run_log r) = first :: rest ->
        req_url first
        = _api_base self +:+ "/" +:+ "space/" +:+ space_key +:+ "/content/"
            +:+ value content_type
        /\ req_params first !! "depth" = (if just_root then Some "root" else None)
        /\ (forall k, k <> "depth" -> k <> "expand" -> req_params first !! k = None)).
Proof.
  split; intros w fuel n r first rest H E; apply consumed_Taken in H;
    destruct (Taken_first self _ _ _ _ _ _ H _ _ E) as [-> _];
    rewrite req_url_build, req_params_build; (split; [reflexivity|]); split.
  - rewrite lookup_add_expand_ne by discriminate. destruct just_root; lookups; reflexivity.
  - intros k K1 K2. rewrite lookup_add_expand_ne by congruence.
    destruct just_root; [rewrite lookup_insert_ne by congruence|]; apply lookup_empty.
  - rewrite lookup_add_expand_ne by discriminate. destruct just_root; lookups; reflexivity.
  - intros k K1 K2. rewrite lookup_add_expand_ne by congruence.
    destruct just_root; [rewrite lookup_insert_ne by congruence|]; apply lookup_empty.
Qed.

Lemma fails_raises (self : Confluence) params req resp e :
  fails self (req, resp) e ->
  (do search_results <- resp; turn_page self params search_results) = inl e.
Proof.
  unfold fails. simpl. destruct resp as [e0|body]; simpl; [auto|].
  intros H. pose proof (turn_page_params self params ∅ body) as I. rewrite H in I.
  destruct (turn_page self params body) as [e1|[[u0 p0] pending0]]; [|contradiction].
  congruence.
Qed.

Lemma drains_followed (self : Confluence) item_type url params w pages url' params' w' :
  followed self url params w pages url' params' w' ->
  forall r,
    drains self (GenLoop item_type (Some url') params') w' r ->
    drains self (GenLoop item_type (Some url) params) w
      {| run_items := flat_map (fun pg => map (hydrate item_type) (snd pg)) pages
                      ++ run_items r;
         run_status := run_status r;
         run_log := flat_map (fun pg => page_block item_type (fst pg) (snd pg)) pages
                    ++ run_log r;
         run_gen := run_gen r;
         run_world := run_world r |}.
Proof.
  induction 1 as [url params w
                 |url params w body links results next w1 pages url' params' w' H P N _ IH];
    intros r D.
  - destruct D as [f D]. exists f. rewrite D. destruct r; reflexivity.
  - pose proof (drains_yields self item_type _ _ w1 _
                  (drains_for_nil self _ _ _ _ _ (IH r D)) results) as D1.
    pose proof (drains_page self item_type url params w (inr body) w1 _ _ _ _ _
                  (fetch_intro self _ _ _ _ _ H)
                  (turn_page_next self params body links results next P N) D1) as [f D2].
    exists f. rewrite D2. unfold with_gets, prepend. simpl.
    rewrite <- !app_assoc. reflexivity.
Qed.

(** X15.  A failure in the middle of the pagination comes after
    everything before it.  When pages with next links are followed by a
    request whose response makes the loop body raise (a transport
    failure, a body without [_links] or [results], ...), draining the
    query terminates: all items of the pages before were delivered, in
    order, each page after its GET, then the failing GET went out, and
    the iteration ended with that exception. *)
Theorem failure_after_delivered_pages (self : Confluence) item_type path params expand
    w pages url' params' w1 resp e w' :
  followed self (_api_base self +:+ "/" +:+ path) (add_expand params expand) w
    pages url' params' w1 ->
  http_get (build_request self url' params') w1 = (resp, w') ->
  fails self (build_request self url' params', resp) e ->
  exists fuel0,
    forall fuel, fuel0 <= fuel ->
      drain fuel self (_get_paged_results item_type path params expand) w
      = Some (failed_run item_type pages (build_request self url' params', resp) e w').
Proof.
  intros F H B.
  pose proof (drains_raise self item_type url' params' w1 resp w' _ e
                (fetch_intro self _ _ _ _ _ H) (fails_raises self _ _ _ _ B)) as D.
  destruct (drains_created self item_type path params expand w _
              (drains_followed self item_type _ _ _ _ _ _ _ F _ D)) as [fuel0 D'].
  exists fuel0. intros fuel Hle. unfold _get_paged_results.
  rewrite (drain_mono self fuel0 fuel _ _ _ D' Hle). unfold failed_run, ended. simpl.
  rewrite app_nil_r. reflexivity.
Qed.

End Engine.

(** ** The claims on the scripted transport *)

(** C1.  [get_long_task] does not take the single-result path.  It returns
    the generator of a paged query and sends nothing by itself; pulling
    from it against the body of a single task sends the one GET to
    [longtask/7f3a] and then raises [KeyError] on the missing [results],
    with no [LongTask] delivered.  The single-result path, which
    [get_group] and [get_space] take, returns the hydrated object for
    the same exchange. *)
Example get_long_task_is_paged :
  get_long_task "7f3a" None = _get_paged_results LongTask "longtask/7f3a" ∅ None
  /\ drain scripted tagged no_compound 5 wiki (get_long_task "7f3a" None) [inr task_body]
     = Some {| run_items := [];
               run_status := Some (Failed (KeyError "results"));
               run_log :=
                 [EvGet (build_request wiki "https://wiki/rest/api/longtask/7f3a" ∅,
                         inr task_body)];
               run_gen := GenDone;
               run_world := [] |}
  /\ _get_single_result scripted tagged wiki LongTask "longtask/7f3a" ∅ None [inr task_body]
     = (inr (LongTask, task_body), [],
        [(build_request wiki "https://wiki/rest/api/longtask/7f3a" ∅, inr task_body)])
  /\ get_group scripted tagged wiki "7f3a" None [inr task_body]
     = (inr (Group, task_body), [],
        [(build_request wiki "https://wiki/rest/api/group/7f3a" ∅, inr task_body)]).
Proof. repeat split. Qed.

(** The two-page script is a chain that ends, and draining it terminates. *)
Lemma paged_iteration_terminates_witness :
  exists pages fuel0,
    forall fuel, fuel0 <= fuel ->
      drain scripted tagged no_compound fuel wiki
        (_get_paged_results Page "content" ∅ None) two_pages
      = Some (full_run tagged Page pages ([] : list (raises json)))
      /\ length (requests_of (run_log (full_run tagged Page pages ([] : list (raises json))))) = length pages
      /\ run_status (full_run tagged Page pages ([] : list (raises json))) = Some Exhausted.
Proof.
  eexists.
  apply (paged_iteration_terminates scripted tagged no_compound wiki Page "content" ∅ None
           two_pages).
  eapply served_next; [reflexivity|split; reflexivity|reflexivity|].
  eapply served_last; [reflexivity|split; reflexivity|reflexivity].
Defined.

(** Two scripted pages come out in order, one request per page. *)
Lemma two_pages_in_order_witness :
  exists fuel0,
    forall fuel, fuel0 <= fuel ->
      drain scripted tagged no_compound fuel wiki
        (_get_paged_results Page "content" ∅ None) two_pages
      = Some {| run_items := [(Page, JStr "a"); (Page, JStr "b"); (Page, JStr "c")];
                run_status := Some Exhausted;
                run_log :=
                  [EvGet (build_request wiki "https://wiki/rest/api/content" ∅, inr page_one);
                   EvYield (Page, JStr "a"); EvYield (Page, JStr "b");
                   EvGet (build_request wiki "https://wiki/rest/api/content?start=25" ∅,
                          inr page_two);
                   EvYield (Page, JStr "c")];
                run_gen := GenDone;
                run_world := [] |}
      /\ (forall n, 0 < n <= 2 ->
            take scripted tagged no_compound fuel n wiki
              (_get_paged_results Page "content" ∅ None) two_pages
            = Some {| run_items := map (tagged Page) (firstn n [JStr "a"; JStr "b"]);
                      run_status := None;
                      run_log :=
                        page_block tagged Page
                          (build_request wiki "https://wiki/rest/api/content" ∅, inr page_one)
                          (firstn n [JStr "a"; JStr "b"]);
                      run_gen :=
                        GenFor Page (skipn n [JStr "a"; JStr "b"])
                          (Some "https://wiki/rest/api/content?start=25") ∅;
                      run_world := [inr page_two] |}).
Proof.
  apply (proj1 (two_pages_in_order scripted tagged no_compound wiki Page "content" ∅ None)
           two_pages page_one
           [("next", JStr "/rest/api/content?start=25")] [JStr "a"; JStr "b"]
           (JStr "/rest/api/content?start=25") [inr page_two]
           page_two [("self", JStr "/rest/api/content")] [JStr "c"] []);
    try reflexivity; split; reflexivity.
Defined.

(** On the two-page script the second request carries no parameter. *)
Lemma params_cleared_witness :
  exists r first rest,
    drain scripted tagged no_compound 9 wiki
      (_get_paged_results Page "content" {["title" := "Home"]} (Some ["space"])) two_pages
    = Some r
    /\ requests_of (run_log r) = first :: rest
    /\ req_params first = add_expand {["title" := "Home"]} (Some ["space"])
    /\ Forall (fun rq => req_params rq = ∅) rest.
Proof.
  eexists _, _, _. split; [reflexivity|]. split; [reflexivity|].
  apply (proj1 (params_cleared_after_first_page scripted tagged no_compound wiki
                  Page "content" {["title" := "Home"]} (Some ["space"]) two_pages 9 0 _
                  (or_intror eq_refl)) _ _ eq_refl).
Defined.

(** On the two-page script the second request goes to the next link. *)
Lemma next_link_followed_witness :
  exists r req1 req2,
    drain scripted tagged no_compound 9 wiki
      (_get_paged_results Page "content" ∅ None) two_pages = Some r
    /\ gets_of (run_log r) = [(req1, inr page_one); (req2, inr page_two)]
    /\ req_url req1 = "https://wiki/rest/api/content"
    /\ (exists members links next,
          (inr page_one : raises json) = inr (JObj members)
          /\ assoc "_links" members = Some (JObj links)
          /\ assoc "next" links = Some next
          /\ req_url req2 = _base_url wiki +:+ py_str no_compound next)
    /\ run_status r = Some Exhausted.
Proof.
  eexists _, _, _. split; [reflexivity|]. split; [reflexivity|].
  pose proof (next_link_followed scripted tagged no_compound wiki Page "content" ∅ None
                two_pages 9 0 _ (or_intror eq_refl)) as (U & A & _ & E).
  split; [exact (U _ _ eq_refl)|]. split; [exact (A [] _ _ _ _ [] eq_refl)|].
  apply (E [_] _ page_two [("self", JStr "/rest/api/content")] [JStr "c"] eq_refl eq_refl);
    [split; reflexivity|reflexivity].
Defined.

(** A first page without [_links] raises [KeyError] at once. *)
Lemma malformed_page_fails_witness :
  exists e,
    (forall fuel,
        gen_next scripted tagged no_compound (S (S fuel)) wiki
          (_get_paged_results Page "content" ∅ None) [inr broken_page]
        = Some (Raised e, GenDone, [],
                [(build_request wiki "https://wiki/rest/api/content" ∅, inr broken_page)])
        /\ drain scripted tagged no_compound (S (S (S fuel))) wiki
             (_get_paged_results Page "content" ∅ None) [inr broken_page]
           = Some (ended [(build_request wiki "https://wiki/rest/api/content" ∅,
                           inr broken_page)] (Raised e) GenDone [])
        /\ gen_next scripted tagged no_compound (S fuel) wiki GenDone []
           = Some (StopIteration, GenDone, [], []))
    /\ (assoc "_links" [("results", JArr [JStr "a"])] = None -> e = KeyError "_links")
    /\ (forall links,
          assoc "_links" [("results", JArr [JStr "a"])] = Some (JObj links) ->
          e = KeyError "results").
Proof.
  apply (proj1 (malformed_page_fails scripted tagged no_compound wiki)
           (_get_paged_results Page "content" ∅ None) [inr broken_page]
           (build_request wiki "https://wiki/rest/api/content" ∅)
           [("results", JArr [JStr "a"])] [] eq_refl eq_refl (or_introl eq_refl)).
Defined.

(** Both keys and no key are rejected; one key goes through as the only
    lookup parameter. *)
Lemma user_lookup_witness :
  get_user scripted tagged wiki (Some "alice") (Some "k1") None two_pages
  = (inl (ValueError "Exactly one of username or user_key must be set"), two_pages, [])
  /\ get_user_groups None None None
     = inl (ValueError "Exactly one of username or user_key must be set")
  /\ get_user_groups (Some "alice") None None
     = inr (_get_paged_results Group "user/memberof" {["username" := "alice"]} None)
  /\ get_user_groups (Some "") (Some "k1") None
     = inr (_get_paged_results Group "user/memberof" {["key" := "k1"]} None).
Proof.
  split; [|split; [|split]].
  - exact (proj1 (proj1 (user_lookup_needs_exactly_one scripted tagged no_compound wiki
                           (Some "alice") (Some "k1") None two_pages)
                    (or_introl (conj eq_refl eq_refl)))).
  - refine (proj2 (proj1 (user_lookup_needs_exactly_one scripted tagged no_compound wiki
                            None None None two_pages)
                     (or_intror (conj _ _)))); discriminate.
  - destruct (proj1 (proj2 (user_lookup_needs_exactly_one scripted tagged no_compound wiki
                              (Some "alice") None None two_pages)) eq_refl)
      as (name & E & _ & _ & G & _); [discriminate|].
    injection E as <-. exact G.
  - destruct (proj2 (proj2 (user_lookup_needs_exactly_one scripted tagged no_compound wiki
                              (Some "") (Some "k1") None two_pages)))
      as (key & E & _ & _ & G & _); [discriminate|reflexivity|].
    injection E as <-. exact G.
Defined.

(** A blog post query for 5 March 2024 sends [postingDay=2024-03-05]; the
    same query for pages sends no [postingDay]. *)
Lemma posting_day_witness :
  exists r first rest,
    take scripted tagged no_compound 5 1 wiki
      (get_content "blogpost" None None None (Some (mkDate 2024 3 5)) None) two_pages = Some r
    /\ requests_of (run_log r) = first :: rest
    /\ req_params first !! "postingDay" = Some "2024-03-05".
Proof.
  eexists _, _, _. split; [reflexivity|]. split; [reflexivity|].
  destruct (proj2 (proj2 (posting_day_only_for_blogposts scripted tagged no_compound wiki
                            "blogpost" None None None (Some (mkDate 2024 3 5)) None))
              two_pages 5 1 _ _ _ (or_introl eq_refl) eq_refl) as (_ & I & _).
  apply I. exists (mkDate 2024 3 5). repeat split.
Defined.

(** The scripted transport answers alike on both channels, and a content
    query observes the same before and after [__enter__]. *)
Lemma scoped_and_unscoped_witness :
  observe scripted tagged no_compound 9 2 (fst (__enter__ wiki))
    (OpGetContent "page" None None None None (Some ["space"])) two_pages
  = observe scripted tagged no_compound 9 2 wiki
      (OpGetContent "page" None None None None (Some ["space"])) two_pages
  /\ observe scripted tagged no_compound 9 2 (fst (__enter__ wiki))
       (OpGetSpace "DOCS" None) [inr task_body]
     = observe scripted tagged no_compound 9 2 wiki (OpGetSpace "DOCS" None) [inr task_body].
Proof.
  pose proof (proj2 (scoped_and_unscoped_agree scripted tagged no_compound wiki eq_refl)
                (fun r1 r2 w _ => eq_refl)) as H.
  split; apply H.
Defined.

(** Entering the sample client returns [None]; leaving it closes the
    session; leaving a client that was never entered changes nothing. *)
Lemma enter_returns_none_witness :
  __exit__ wiki = wiki
  /\ snd (__enter__ wiki) = PyNone
  /\ _client (__exit__ (fst (__enter__ wiki)))
     = Some {| sess_auth := Some ("user", "secret"); sess_closed := true |}.
Proof.
  destruct (enter_returns_none wiki) as (A & _ & _ & _ & E & _ & X).
  split; [exact (X eq_refl)|]. split; [exact A|exact E].
Defined.

(** ** The further properties on the sample transports *)

Lemma requests_built_by_client_witness :
  exists r,
    drain scripted tagged no_compound 9 wiki
      (get_content "page" None None None None None) two_pages = Some r
    /\ Forall (sent_by wiki) (requests_of (run_log r)).
Proof.
  eexists. split; [reflexivity|].
  apply (requests_built_by_client scripted tagged no_compound wiki
           (OpGetContent "page" None None None None None) two_pages _
           (in_use_init "https://wiki" ("user", "secret"))).
  exists 9, 0, two_pages. eexists. split; [right; reflexivity|reflexivity].
Defined.

Lemma lifecycle_keeps_identity_witness :
  __str__ wiki = "https://wiki/rest/api"
  /\ __str__ (__exit__ (fst (__enter__ wiki))) = "https://wiki/rest/api"
  /\ __exit__ (__exit__ wiki) = __exit__ wiki.
Proof.
  destruct (lifecycle_keeps_identity wiki) as (_ & I & _ & _ & S).
  destruct (lifecycle_keeps_identity (fst (__enter__ wiki))) as (K & _).
  split; [exact (S (in_use_init "https://wiki" ("user", "secret")))|].
  split; [|exact I].
  destruct (K (__exit__ (fst (__enter__ wiki))) (or_intror eq_refl)) as (_ & _ & _ & E).
  exact E.
Defined.




Lemma finished_stays_finished_witness :
  exists r,
    drain scripted tagged no_compound 9 wiki
      (_get_paged_results Page "content" ∅ None) [inr broken_page] = Some r
    /\ run_status r = Some (Failed (KeyError "_links"))
    /\ run_gen r = GenDone
    /\ drain scripted tagged no_compound 9 wiki (run_gen r) two_pages
       = Some (ended [] StopIteration GenDone two_pages).
Proof.
  eexists. split; [reflexivity|]. split; [reflexivity|].
  destruct (finished_stays_finished scripted tagged no_compound wiki 9 0
              (_get_paged_results Page "content" ∅ None) [inr broken_page] _
              (or_intror eq_refl) ltac:(discriminate)) as [D F].
  split; [exact D|]. exact (proj2 (proj2 (F 7 0 two_pages))).
Defined.

Lemma transport_failure_surfaces_witness :
  gen_next unreachable tagged no_compound 2 wiki
    (_get_paged_results Page "content" ∅ None) tt
  = Some (Raised TransportError, GenDone, tt,
          [(build_request wiki "https://wiki/rest/api/content" ∅, inl TransportError)])
  /\ _get_single_result unreachable tagged wiki Space "space/DOCS" ∅ None tt
     = (inl TransportError, tt,
        [(build_request wiki "https://wiki/rest/api/space/DOCS" ∅, inl TransportError)]).
Proof.
  destruct (transport_failure_surfaces unreachable tagged no_compound wiki) as (P & S & _).
  split.
  - exact (proj1 (P (_get_paged_results Page "content" ∅ None) tt _ TransportError tt
                    eq_refl eq_refl 0)).
  - exact (S Space "space/DOCS" ∅ None tt TransportError tt eq_refl).
Defined.

Lemma drained_items_are_the_results_witness :
  exists r,
    drain scripted tagged no_compound 9 wiki
      (_get_paged_results Page "content" ∅ None) two_pages = Some r
    /\ run_items r = [(Page, JStr "a"); (Page, JStr "b"); (Page, JStr "c")]
    /\ run_items r
       = flat_map (fun x => map (tagged Page) (delivered no_compound wiki (snd x)))
           (gets_of (run_log r)).
Proof.
  eexists. split; [reflexivity|]. split; [reflexivity|].
  exact (proj1 (drained_items_are_the_results scripted tagged no_compound wiki
                  Page "content" ∅ None 9 two_pages _ eq_refl)).
Defined.

Lemma endless_empty_pages_witness :
  gen_next endless tagged no_compound 1000 wiki
    (_get_paged_results Page "content" ∅ None) tt = None
  /\ drain endless tagged no_compound 1000 wiki
       (_get_paged_results Page "content" ∅ None) tt = None.
Proof.
  assert (E : only_empty_pages endless).
  { intros req w. exists endless_page, [("next", JStr "/rest/api/content?start=0")],
      (JStr "/rest/api/content?start=0"), w. repeat split. }
  destruct (endless_empty_pages_never_return endless tagged no_compound wiki E 1000
              (_get_paged_results Page "content" ∅ None) tt ltac:(discriminate))
    as (G & D & _).
  split; assumption.
Defined.

Lemma expand_is_comma_joined_witness :
  exists r first rest,
    take scripted tagged no_compound 5 1 wiki
      (get_content "page" None None None None (Some ["body.storage"; "space"])) two_pages
    = Some r
    /\ requests_of (run_log r) = first :: rest
    /\ req_params first !! "expand" = Some "body.storage,space".
Proof.
  eexists _, _, _. split; [reflexivity|]. split; [reflexivity|].
  refine (proj1 (expand_is_comma_joined scripted tagged no_compound wiki
                   (OpGetContent "page" None None None None
                      (Some ["body.storage"; "space"]))
                   two_pages _ _ _ _ eq_refl)).
  exists 5, 1, two_pages. eexists. split; [left; reflexivity|reflexivity].
Defined.

Lemma content_filters_witness :
  content_params "comment" (Some "DOCS") (Some "") None None !! "type" = None
  /\ content_params "comment" (Some "DOCS") (Some "") None None !! "spaceKey" = Some "DOCS"
  /\ content_params "comment" (Some "DOCS") (Some "") None None !! "title" = None.
Proof.
  destruct (content_filters scripted tagged no_compound wiki
              "comment" (Some "DOCS") (Some "") None None None) as (T & K & I & _).
  split; [exact T|]. split; [exact K|exact I].
Defined.

Lemma spaces_filters_witness :
  exists r first rest,
    take scripted tagged no_compound 5 1 wiki
      (get_spaces (Some ["DOCS"; "ENG"]) (Some (mkEnum "global")) None None (Some false) None)
      two_pages = Some r
    /\ requests_of (run_log r) = first :: rest
    /\ req_params first !! "spaceKey" = Some "DOCS,ENG"
    /\ req_params first !! "type" = Some "global"
    /\ req_params first !! "favourite" = None.
Proof.
  eexists _, _, _. split; [reflexivity|]. split; [reflexivity|].
  destruct (proj2 (proj2 (spaces_filters scripted tagged no_compound wiki
                            (Some ["DOCS"; "ENG"]) (Some (mkEnum "global")) None None
                            (Some false) None))
              two_pages 5 1 _ _ _ (or_introl eq_refl) eq_refl)
    as (_ & K & T & _ & _ & F).
  split; [exact K|]. split; [exact T|exact F].
Defined.

Lemma search_parameters_witness :
  exists r first rest,
    take scripted tagged no_compound 5 1 wiki (search "" (Some "") None) two_pages = Some r
    /\ requests_of (run_log r) = first :: rest
    /\ req_url first = "https://wiki/rest/api/content/search"
    /\ req_params first !! "cql" = Some ""
    /\ req_params first !! "cqlcontext" = None.
Proof.
  eexists _, _, _. split; [reflexivity|]. split; [reflexivity|].
  destruct (search_parameters scripted tagged no_compound wiki "" (Some "") None
              two_pages 5 1 _ _ _ (or_introl eq_refl) eq_refl) as (U & Q & C & _).
  split; [exact U|]. split; [exact Q|exact C].
Defined.

Lemma space_content_parameters_witness :
  exists r first rest,
    take scripted tagged no_compound 5 1 wiki
      (get_space_content_with_type "DOCS" (mkEnum "blogpost") true None) two_pages = Some r
    /\ requests_of (run_log r) = first :: rest
    /\ req_url first = "https://wiki/rest/api/space/DOCS/content/blogpost"
    /\ req_params first !! "depth" = Some "root".
Proof.
  eexists _, _, _. split; [reflexivity|]. split; [reflexivity|].
  destruct (proj2 (space_content_parameters scripted tagged no_compound wiki
                     "DOCS" (mkEnum "blogpost") true None)
              two_pages 5 1 _ _ _ (or_introl eq_refl) eq_refl) as (U & D & _).
  split; [exact U|exact D].
Defined.

Lemma failure_after_delivered_pages_witness :
  exists fuel0,
    forall fuel, fuel0 <= fuel ->
      drain scripted tagged no_compound fuel wiki
        (_get_paged_results Page "content" ∅ None) [inr page_one; inr broken_page]
      = Some (failed_run tagged Page
                [((build_request wiki "https://wiki/rest/api/content" ∅, inr page_one),
                  [JStr "a"; JStr "b"])]
                (build_request wiki "https://wiki/rest/api/content?start=25" ∅,
                 inr broken_page)
                (KeyError "_links") ([] : list (raises json))).
Proof.
  apply (failure_after_delivered_pages scripted tagged no_compound wiki Page "content" ∅ None
           [inr page_one; inr broken_page] _
           "https://wiki/rest/api/content?start=25" ∅ [inr broken_page]
           (inr broken_page) (KeyError "_links") []).
  - eapply followed_page; [reflexivity|split; reflexivity|reflexivity|].
    apply followed_none.
  - reflexivity.
  - reflexivity.
Defined.
